(** * Aura Farm Image Transformer: visitor counter and transformation pipeline

    A shallow embedding of [src/app.py]:
    - [track_visitor], the file-backed counter of distinct sessions;
    - [get_prompt_for_transformation], the style-to-prompt table;
    - [transform_image_with_openai], the wrapper of the image-edit call;
    - [main_page], with the archive loop of its lines 288-302 named [package].

    Python values that come out of [json.load] are dynamically typed, so
    they are embedded as a [json] tree and every operation of the source
    that can raise returns an exception.  Statements about well-shaped
    visitor data go through [to_json], the encoding of the typed record
    [VisitorData]. *)

From Stdlib Require Import ZArith Floats.PrimFloat.
From stdpp Require Import gmap strings list fin_maps pretty.

#[local] Set Warnings "-register-all".
#[local] Open Scope Z_scope.

(** ** Exceptions and the state-and-exception monad *)

(** What [S -> S * (E + A)] says: a raised exception keeps the effects that
    happened before it, as in Python. *)
Definition M (E S A : Type) : Type := S → S * (E + A).

Definition ret {E S A} (a : A) : M E S A := λ s, (s, inr a).

Definition bind {E S A B} (c : M E S A) (k : A → M E S B) : M E S B :=
  λ s, match c s with
       | (s', inr a) => k a s'
       | (s', inl e) => (s', inl e)
       end.

Definition get {E S} : M E S S := λ s, (s, inr s).

Definition modify {E S} (f : S → S) : M E S unit := λ s, (f s, inr tt).

(** A pure step that may raise, such as a subscript. *)
Definition lift {E S A} (r : E + A) : M E S A := λ s, (s, r).

(** [try: c except Exception as e: h e] *)
Definition try_except {E S A} (c : M E S A) (h : E → M E S A) : M E S A :=
  λ s, match c s with
       | (s', inr a) => (s', inr a)
       | (s', inl e) => h e s'
       end.

Declare Scope py_scope.
Delimit Scope py_scope with py.
Notation "x <- c ;; k" := (bind c (λ x, k))
  (at level 100, c at next level, right associativity) : py_scope.
Notation "c ;;; k" := (bind c (λ _, k))
  (at level 100, right associativity) : py_scope.
#[local] Open Scope py_scope.

(** ** JSON values, as [json.load] builds them *)

Inductive json : Type :=
  | JNull
  | JBool (b : bool)
  | JInt (n : Z)
  | JFloat (x : float)
  | JStr (s : string)
  | JList (l : list json)
  | JDict (d : gmap string json).

(** The exceptions [track_visitor] can meet.  [OtherError] stands for what
    opening or reading the file may raise besides a JSON syntax error
    ([OSError], [UnicodeDecodeError]). *)
Inductive exn : Type :=
  | JSONDecodeError
  | KeyError (key : string)
  | TypeError
  | AttributeError
  | OtherError (description : string).

(** [s in t] for two Python strings: [s] occurs in [t] as a substring. *)
Fixpoint is_substring (s t : string) : bool :=
  String.prefix s t ||
  match t with
  | EmptyString => false
  | String _ t' => is_substring s t'
  end.

(** An element of a list compares equal to a [str] only when it is that
    string. *)
Definition eq_str (s : string) (v : json) : bool :=
  match v with
  | JStr t => bool_decide (t = s)
  | _ => false
  end.

(** [v[key]] for a string [key]. *)
Definition getitem (v : json) (key : string) : exn + json :=
  match v with
  | JDict d => match d !! key with
               | Some x => inr x
               | None => inl (KeyError key)
               end
  | _ => inl TypeError
  end.

(** [v[key] = x] for a string [key]. *)
Definition setitem (v : json) (key : string) (x : json) : exn + json :=
  match v with
  | JDict d => inr (JDict (<[key := x]> d))
  | _ => inl TypeError
  end.

(** [s in v] for a string [s]. *)
Definition contains (v : json) (s : string) : exn + bool :=
  match v with
  | JList l => inr (existsb (eq_str s) l)
  | JDict d => inr (bool_decide (is_Some (d !! s)))
  | JStr t => inr (is_substring s t)
  | _ => inl TypeError
  end.

(** [v.append(x)]: only lists have the method. *)
Definition append (v x : json) : exn + json :=
  match v with
  | JList l => inr (JList (l ++ [x]))
  | _ => inl AttributeError
  end.

(** [v + 1], the value [v += 1] stores: [bool] is a subclass of [int]. *)
Definition add_one (v : json) : exn + json :=
  match v with
  | JInt n => inr (JInt (n + 1))
  | JBool b => inr (JInt ((if b then 1 else 0) + 1))
  | JFloat x => inr (JFloat (PrimFloat.add x 1%float))
  | _ => inl TypeError
  end.

(** ** The visitor tracker *)

(** The part of the world [track_visitor] touches.
    - [file]: [VISITOR_DATA_FILE].  [None] when [os.path.exists] is false;
      otherwise what [open] followed by [json.load] yields on it.
    - [writes]: every document [json.dump] has written, oldest first.
      Opening the file for writing is taken to succeed, and a written
      document loads back as itself.
    - [session_id]: the slot [st.session_state.session_id]. *)
Record world : Type := World {
  file : option (exn + json);
  writes : list json;
  session_id : option string
}.

Definition empty_visitor_data : json :=
  JDict (<["total_count" := JInt 0]>
        (<["daily_counts" := JDict ∅]>
        (<["sessions" := JList []]> ∅))).

(** Lines 36-43: the document [track_visitor] starts from.  Only
    [json.JSONDecodeError] is caught. *)
Definition load_visitor_data (f : option (exn + json)) : exn + json :=
  match f with
  | Some (inr v) => inr v
  | Some (inl JSONDecodeError) => inr empty_visitor_data
  | Some (inl e) => inl e
  | None => inr empty_visitor_data
  end.

(** Lines 65-66. *)
Definition save_visitor_data (v : json) : M exn world unit :=
  modify (λ w, {| file := Some (inr v);
                  writes := writes w ++ [v];
                  session_id := session_id w |}).

(** Lines 46-50; [uuid] is what [str(uuid.uuid4())] would return. *)
Definition current_session_id (uuid : string) : M exn world string :=
  w <- get ;;
  match session_id w with
  | Some sid => ret sid
  | None =>
      modify (λ w, {| file := file w; writes := writes w;
                      session_id := Some uuid |}) ;;;
      ret uuid
  end.

(** [track_visitor()]; [today] is [datetime.now().strftime("%Y-%m-%d")].
    The local [visitor_data] is mutated in place by the source; here each
    mutation rebinds it. *)
Definition track_visitor (uuid today : string) : M exn world json :=
  w <- get ;;
  visitor_data <- lift (load_visitor_data (file w)) ;;
  sid <- current_session_id uuid ;;
  sessions <- lift (getitem visitor_data "sessions") ;;
  seen <- lift (contains sessions sid) ;;
  if negb seen then
    sessions <- lift (append sessions (JStr sid)) ;;
    visitor_data <- lift (setitem visitor_data "sessions" sessions) ;;
    total <- lift (getitem visitor_data "total_count") ;;
    total <- lift (add_one total) ;;
    visitor_data <- lift (setitem visitor_data "total_count" total) ;;
    daily <- lift (getitem visitor_data "daily_counts") ;;
    counted <- lift (contains daily today) ;;
    daily <- (if counted then
                n <- lift (getitem daily today) ;;
                n <- lift (add_one n) ;;
                lift (setitem daily today n)
              else
                lift (setitem daily today (JInt 1))) ;;
    visitor_data <- lift (setitem visitor_data "daily_counts" daily) ;;
    save_visitor_data visitor_data ;;;
    lift (getitem visitor_data "total_count")
  else
    lift (getitem visitor_data "total_count").

(** ** Well-shaped visitor data *)

(** The three fields of the stored document, typed.  [sessions] is the
    JSON list of the source, in insertion order. *)
Record VisitorData : Type := {
  total_count : Z;
  daily_counts : gmap string Z;
  sessions : list string
}.

Definition to_json (vd : VisitorData) : json :=
  JDict (<["total_count" := JInt (total_count vd)]>
        (<["daily_counts" := JDict (JInt <$> daily_counts vd)]>
        (<["sessions" := JList (JStr <$> sessions vd)]> ∅))).

Definition empty_data : VisitorData :=
  {| total_count := 0; daily_counts := ∅; sessions := [] |}.

(** The session identifier a call works with (line 50). *)
Definition session_of (uuid : string) (w : world) : string :=
  default uuid (session_id w).

(** The new-session update in the words of the specification: add the
    identifier, increment [total_count], increment today's entry of
    [daily_counts] or initialise it to 1. *)
Definition count_today (today : string) (daily : gmap string Z) : gmap string Z :=
  match daily !! today with
  | Some n => <[today := n + 1]> daily
  | None => <[today := 1]> daily
  end.

Definition record_new_session (sid today : string) (vd : VisitorData) : VisitorData :=
  {| total_count := total_count vd + 1;
     daily_counts := count_today today (daily_counts vd);
     sessions := sessions vd ++ [sid] |}.

(** [recordVisit] on typed data: nothing changes for a session already
    counted. *)
Definition record_visit (sid today : string) (vd : VisitorData) : VisitorData :=
  if bool_decide (sid ∈ sessions vd) then vd
  else record_new_session sid today vd.

(** The store holds (or, when missing or unparseable, stands for) the
    well-shaped data [vd]. *)
Definition loads_as (w : world) (vd : VisitorData) : Prop :=
  load_visitor_data (file w) = inr (to_json vd).

(** One page load: the client's own session slot, the identifier
    [uuid4] would hand out, and the date of the call. *)
Record call : Type := Call {
  call_slot : option string;
  call_uuid : string;
  call_today : string
}.

Definition visit (c : call) : M exn world json :=
  modify (λ w, {| file := file w; writes := writes w;
                  session_id := call_slot c |}) ;;;
  track_visitor (call_uuid c) (call_today c).

(** Page loads one after the other against the same store; the counts
    returned are collected. *)
Fixpoint visits (cs : list call) : M exn world (list json) :=
  match cs with
  | [] => ret []
  | c :: cs =>
      n <- visit c ;;
      ns <- visits cs ;;
      ret (n :: ns)
  end.

(** The typed data after each of a series of page loads. *)
Fixpoint replay (cs : list call) (vd : VisitorData) : list VisitorData :=
  match cs with
  | [] => []
  | c :: cs =>
      let vd' := record_visit (default (call_uuid c) (call_slot c))
                   (call_today c) vd in
      vd' :: replay cs vd'
  end.

(** Sum of the values of [daily_counts]. *)
Definition sum_counts (daily : gmap string Z) : Z :=
  map_fold (λ _ n acc, n + acc) 0 daily.

(** Cardinality of [sessions] read as a set. *)
Definition session_count (l : list string) : Z :=
  Z.of_nat (size (list_to_set l : gset string)).

Definition visitor_invariant (vd : VisitorData) : Prop :=
  total_count vd = sum_counts (daily_counts vd) ∧
  sum_counts (daily_counts vd) = session_count (sessions vd).


(** ** The prompt resolver *)

Definition style_prompts : gmap string string :=
  <["Ghibli" := "Transform this image into Studio Ghibli animation style with vibrant colors, whimsical elements, and a dreamy atmosphere."]>
  (<["Minecraft" := "Transform this image into Minecraft style with blocky pixelated texture, bright colors, and cubic shapes."]>
  (<["Chicken-Jockey" := "Transform this image into a blocky Minecraft-style character cool green zombie riding a chicken."]>
  (<["Humanize" := "Transform this image into a realistic human-like representation with natural proportions, detailed features, and lifelike textures."]>
   ∅))).

Definition fallback_prompt : string := "Transform this image in a creative way.".

(** [style_prompts.get(style_type, fallback)] *)
Definition get_prompt_for_transformation (style_type : string) : string :=
  default fallback_prompt (style_prompts !! style_type).

(** ** The transformation pipeline *)

(** Python [bytes]. *)
Abbreviation bytes := string (only parsing).

(** An exception raised by a collaborator, kept as its [str(e)]. *)
Inductive exception : Type := Exception (str : string).

Definition str (e : exception) : string :=
  match e with Exception s => s end.

(** The keyword arguments of [client.images.edit]. *)
Record edit_request : Type := {
  req_model : string;
  req_image : bytes;
  req_prompt : string;
  req_n : Z;
  req_size : string
}.

(** An item of [response.data]. *)
Record image_item : Type := { url : string }.

Record http_response : Type := { status_code : Z; content : bytes }.

(** The collaborators, as oracles.
    - [images_edit key req]: [client.images.edit(...)] on the client built
      for [key]; the result is [response.data] or the exception raised.
      [OpenAI(api_key=key)] itself is taken to succeed on a string.
    - [requests_get u]: [requests.get(u)].
    - [random_randint k]: the [k]-th value [random.randint(1, 10)] returns. *)
Record services : Type := {
  images_edit : string → edit_request → exception + list image_item;
  requests_get : string → exception + http_response;
  random_randint : nat → Z
}.

Inductive image_source : Type :=
  | Uploaded (data : bytes)
  | Url (u : string).

(** The archive [zip_io.getvalue()] holds once the [ZipFile] is closed:
    its entries, name and data, in the order written.  The byte layout
    [zipfile] gives them is not modelled. *)
Abbreviation archive := (list (string * string)) (only parsing).

(** What a run renders and which services it calls, in order.  Layout
    containers are left out. *)
Inductive event : Type :=
  | st_image (src : image_source) (caption : string)
  | st_status (label : string)
  | st_status_update (label state : string)
  | st_write (text : string)
  | st_toast (text : string)
  | st_markdown (text : string)
  | st_separator
  | st_progress (tenths : Z) (text : string)
  | st_error (text : string)
  | st_warning (text : string)
  | st_subheader (text : string)
  | st_download_button (label : string) (data : archive)
      (file_name mime : string)
  | images_edit_call (api_key : string) (req : edit_request)
  | requests_get_call (u : string).

Record page : Type := Page {
  log : list event;
  transformed_images : option (list string);
  all_images : option (list string);
  draws : nat
}.

Definition emit (e : event) : M exception page unit :=
  modify (λ p, {| log := log p ++ [e];
                  transformed_images := transformed_images p;
                  all_images := all_images p;
                  draws := draws p |}).

Definition set_transformed_images (urls : list string) : M exception page unit :=
  modify (λ p, {| log := log p;
                  transformed_images := Some urls;
                  all_images := all_images p;
                  draws := draws p |}).

Definition set_all_images (urls : list string) : M exception page unit :=
  modify (λ p, {| log := log p;
                  transformed_images := transformed_images p;
                  all_images := Some urls;
                  draws := draws p |}).

(** [str.lower()] on ASCII; other bytes are left as they are. *)
Definition lower_ascii (c : Ascii.ascii) : Ascii.ascii :=
  let k := Ascii.nat_of_ascii c in
  if ((65 <=? k) && (k <=? 90))%nat then Ascii.ascii_of_nat (k + 32) else c.

Fixpoint lower (s : string) : string :=
  match s with
  | EmptyString => EmptyString
  | String c s' => String (lower_ascii c) (lower s')
  end.

(** Truth value of a [str]. *)
Definition truthy (s : string) : bool :=
  match s with EmptyString => false | _ => true end.

Definition is_not_None {A} (x : option A) : bool :=
  match x with Some _ => true | None => false end.

(** Truth value of the upload: an [UploadedFile] defines neither
    [__bool__] nor [__len__], so only [None] is false. *)
Definition truthy_upload (f : option bytes) : bool := is_not_None f.

(** [uploaded_file.getvalue()] *)
Definition getvalue (f : option bytes) : exception + bytes :=
  match f with
  | Some data => inr data
  | None => inl (Exception "'NoneType' object has no attribute 'getvalue'")
  end.

Section Pipeline.
Variable env : services.

(** [generate_rainbow_rating()] *)
Definition rainbow_colors : list string :=
  ["#FF0000"; "#FF7F00"; "#FFFF00"; "#00FF00"; "#0000FF"; "#4B0082"; "#8B00FF"].

Definition generate_rainbow_rating : M exception page (Z * string * list string) :=
  p <- get ;;
  modify (λ p, {| log := log p;
                  transformed_images := transformed_images p;
                  all_images := all_images p;
                  draws := S (draws p) |}) ;;;
  let rating := random_randint env (draws p) in
  let description :=
    if (1 <=? rating) && (rating <=? 3) then "Needs a bit more magic ✨"
    else if (4 <=? rating) && (rating <=? 6) then "Looking good! 🌟"
    else if (7 <=? rating) && (rating <=? 9) then "Amazing creation! 🌈"
    else if (10 <=? rating) && (rating <=? 10) then "Absolute perfection! 🦄✨"
    else "" in
  ret (rating, description, rainbow_colors).

(** [transform_image_with_openai(api_key, image_data, style, num_images, size)] *)
Definition transform_image_with_openai (api_key : string) (image_data : bytes)
    (style : string) (num_images : Z) (size : string)
    : M exception page (list string) :=
  try_except
    (let prompt := get_prompt_for_transformation style in
     let req := {| req_model := "gpt-4o"; req_image := image_data;
                   req_prompt := prompt; req_n := num_images;
                   req_size := size |} in
     emit (images_edit_call api_key req) ;;;
     data <- lift (images_edit env api_key req) ;;
     let image_urls := url <$> data in
     ret image_urls)
    (λ e,
     emit (st_error ("Error transforming image: " +:+ str e)) ;;;
     ret []).

(** Lines 261-282: show each image with its rating; [i] counts from 0. *)
Fixpoint display_images (style : string) (i : nat) (urls all_images : list string)
    : M exception page (list string) :=
  match urls with
  | [] => ret all_images
  | image_url :: urls =>
      emit (st_image (Url image_url)
              (style +:+ " Transformation " +:+ pretty (i + 1)%nat +:+ " ✨")) ;;;
      let all_images := all_images ++ [image_url] in
      r <- generate_rainbow_rating ;;
      let '(rating, description, _) := r in
      emit (st_markdown ("### Rainbow Rating: " +:+ pretty rating +:+ "/10")) ;;;
      emit (st_progress rating ("Rainbow Rating: " +:+ pretty rating +:+ "/10")) ;;;
      emit (st_markdown ("**" +:+ description +:+ "**")) ;;;
      emit st_separator ;;;
      display_images style (S i) urls all_images
  end.

(** Name of the archive entry of the image at position [i], from 0. *)
Definition entry_name (style : string) (i : nat) : string :=
  lower style +:+ "_transform_" +:+ pretty (i + 1)%nat +:+ ".png".

(** Lines 292-302: the body of the [with zipfile.ZipFile(...)] block. *)
Fixpoint package_loop (style : string) (i : nat) (urls : list string)
    (zipf : archive) : M exception page archive :=
  match urls with
  | [] => ret zipf
  | image_url :: urls =>
      emit (requests_get_call image_url) ;;;
      response <- lift (requests_get env image_url) ;;
      zipf <- (if status_code response =? 200 then
                 let image_data := content response in
                 ret (zipf ++ [(entry_name style i, image_data)])
               else
                 emit (st_error ("Failed to fetch image " +:+ pretty (i + 1)%nat
                                 +:+ ". Error code: "
                                 +:+ pretty (status_code response))) ;;;
                 ret zipf) ;;
      package_loop style (S i) urls zipf
  end.

(** Lines 288-302: a fresh archive filled from the URLs. *)
Definition package (urls : list string) (style : string)
    : M exception page archive :=
  package_loop style 0 urls [].

(** Lines 323-342. *)
Definition gallery : M exception page unit :=
  emit (st_subheader "Transformation Examples") ;;;
  emit (st_markdown "Check out these examples of our transformation styles:") ;;;
  emit (st_image (Url "https://placekitten.com/500/300") "Original Image") ;;;
  emit (st_image (Url "https://placekitten.com/500/301") "Ghibli Style") ;;;
  emit (st_image (Url "https://placekitten.com/500/302") "Minecraft Style") ;;;
  emit (st_image (Url "https://placekitten.com/500/303") "Humanize Style").

(** [main_page(submitted, api_key, style, num_images, image_size, uploaded_file)] *)
Definition main_page (submitted : bool) (api_key style : string)
    (num_images : Z) (image_size : string) (uploaded_file : option bytes)
    : M exception page unit :=
  (match uploaded_file with
   | Some data => emit (st_image (Uploaded data) "Your Uploaded Image")
   | None => ret tt
   end) ;;;
  (if submitted && is_not_None uploaded_file && truthy api_key then
     emit (st_status ("🧙‍♂️ Transforming your image to " +:+ style +:+ " style...")) ;;;
     emit (st_write "⚙️ Processing initiated") ;;;
     emit (st_write ("🔮 Applying " +:+ style +:+ " transformation")) ;;;
     try_except
       (image_bytes <- lift (getvalue uploaded_file) ;;
        transformed_image_urls <-
          transform_image_with_openai api_key image_bytes style num_images
            image_size ;;
        (match transformed_image_urls with
         | _ :: _ =>
             emit (st_toast ("Your " +:+ style +:+ " transformation is ready!")) ;;;
             set_transformed_images transformed_image_urls ;;;
             all_images <- display_images style 0 transformed_image_urls [] ;;
             set_all_images all_images ;;;
             zip_io <- package all_images style ;;
             emit (st_download_button
                     ("🔮 Download All " +:+ style +:+ " Transformations")
                     zip_io
                     ("aura_farm_" +:+ lower style +:+ "_transformations.zip")
                     "application/zip")
         | [] => ret tt
         end) ;;;
        emit (st_status_update ("✅ " +:+ style +:+ " transformation complete!")
                "complete"))
       (λ e, emit (st_error ("Error during transformation: " +:+ str e)))
   else if submitted && negb (truthy_upload uploaded_file) then
     emit (st_warning "Please upload an image to transform.")
   else if submitted && negb (truthy api_key) then
     emit (st_warning "Please provide your OpenAI API key.")
   else ret tt) ;;;
  gallery.

End Pipeline.

(** ** Vocabulary for the statements about the pipeline *)

(** The page once [evs] are rendered after what it already shows. *)
Definition rendered (p : page) (evs : list event) : page :=
  {| log := log p ++ evs;
     transformed_images := transformed_images p;
     all_images := all_images p;
     draws := draws p |}.

Definition gallery_events : list event :=
  [st_subheader "Transformation Examples";
   st_markdown "Check out these examples of our transformation styles:";
   st_image (Url "https://placekitten.com/500/300") "Original Image";
   st_image (Url "https://placekitten.com/500/301") "Ghibli Style";
   st_image (Url "https://placekitten.com/500/302") "Minecraft Style";
   st_image (Url "https://placekitten.com/500/303") "Humanize Style"].

(** A call to the transformation service or a fetch of a result. *)
Definition is_service_call (e : event) : bool :=
  match e with
  | images_edit_call _ _ | requests_get_call _ => true
  | _ => false
  end.

Definition is_warning (e : event) : bool :=
  match e with st_warning _ => true | _ => false end.

(** The request [transform_image_with_openai] sends. *)
Definition request_for (image_data style : string) (num_images : Z)
    (size : string) : edit_request :=
  {| req_model := "gpt-4o"; req_image := image_data;
     req_prompt := get_prompt_for_transformation style;
     req_n := num_images; req_size := size |}.

(** The archive in the words of the specification: one entry per response
    with status 200, named after the position of its URL in the requested
    sequence, counted from [i]. *)
Definition packed_entries (style : string) (i : nat) (rs : list http_response)
    : archive :=
  omap (λ jr : nat * http_response,
          if status_code jr.2 =? 200
          then Some (entry_name style jr.1, content jr.2)
          else None)
       (imap (λ j r, ((i + j)%nat, r)) rs).

(** What fetching the URL at position [i] adds to the page. *)
Definition fetch_events (i : nat) (u : string) (r : http_response) : list event :=
  requests_get_call u ::
  (if status_code r =? 200 then []
   else [st_error ("Failed to fetch image " +:+ pretty (i + 1)%nat
                   +:+ ". Error code: " +:+ pretty (status_code r))]).

Fixpoint package_events (i : nat) (urls : list string) (rs : list http_response)
    : list event :=
  match urls, rs with
  | u :: urls, r :: rs => fetch_events i u r ++ package_events (S i) urls rs
  | _, _ => []
  end.

(** ** Sample inputs *)

(** A store that has counted one session, ["a"], on 2025-01-01. *)
Definition sample_data : VisitorData :=
  {| total_count := 1;
     daily_counts := {["2025-01-01" := 1]};
     sessions := ["a"] |}.

Definition sample_world (slot : option string) : world :=
  {| file := Some (inr (to_json sample_data)); writes := []; session_id := slot |}.

(** No store file yet, and a client without a session identifier. *)
Definition fresh_world : world :=
  {| file := None; writes := []; session_id := None |}.

(** Three page loads: a new client, the same client again, and another
    client on the next day. *)
Definition sample_calls : list call :=
  [ {| call_slot := None; call_uuid := "b"; call_today := "2025-01-01" |};
    {| call_slot := Some "b"; call_uuid := "c"; call_today := "2025-01-01" |};
    {| call_slot := None; call_uuid := "d"; call_today := "2025-01-02" |} ].

Definition sample_items (k : nat) : list image_item :=
  (λ i, {| url := "https://img.example/" +:+ pretty i |}) <$> seq 0 k.

(** A service that rejects the key ["bad"], otherwise answers with as many
    items as requested; the image host has lost image 1. *)
Definition sample_env : services :=
  {| images_edit := λ key req,
       if bool_decide (key = "bad")
       then inl (Exception "Incorrect API key provided")
       else inr (sample_items (Z.to_nat (req_n req)));
     requests_get := λ u,
       if bool_decide (u = "https://img.example/1")
       then inr {| status_code := 404; content := "" |}
       else inr {| status_code := 200; content := "PNG " +:+ u |};
     random_randint := λ k, Z.of_nat k `mod` 10 + 1 |}.

(** The same service with the image host down. *)
Definition offline_env : services :=
  {| images_edit := images_edit sample_env;
     requests_get := λ u, inr {| status_code := 503; content := "" |};
     random_randint := random_randint sample_env |}.

Definition blank_page : page :=
  {| log := []; transformed_images := None; all_images := None; draws := 0 |}.

(** ** Vocabulary for series of page loads *)

(** The session identifier a page load works with. *)
Definition call_session (c : call) : string :=
  default (call_uuid c) (call_slot c).

(** The typed data once a series of page loads is over. *)
Definition final_data (cs : list call) (vd : VisitorData) : VisitorData :=
  default vd (last (replay cs vd)).

(** The page loads of a series that bring a session identifier neither in
    [seen] nor brought by an earlier load of the series. *)
Fixpoint first_visits (seen : list string) (cs : list call) : list call :=
  match cs with
  | [] => []
  | c :: cs =>
      if bool_decide (call_session c ∈ seen) then first_visits seen cs
      else c :: first_visits (seen ++ [call_session c]) cs
  end.

(** The entry of a date in [daily_counts], 0 when there is none. *)
Definition count_on (daily : gmap string Z) (date : string) : Z :=
  default 0 (daily !! date).

(** ** More vocabulary for the pipeline *)

Definition known_styles : list string :=
  ["Ghibli"; "Minecraft"; "Chicken-Jockey"; "Humanize"].

Definition is_download (e : event) : bool :=
  match e with st_download_button _ _ _ _ => true | _ => false end.

(** What lines 263-282 show for the image at position [i], from 0, given
    the rating and the description [generate_rainbow_rating] returned. *)
Definition image_events (style : string) (i : nat) (image_url : string)
    (rating : Z) (description : string) : list event :=
  [st_image (Url image_url)
     (style +:+ " Transformation " +:+ pretty (i + 1)%nat +:+ " ✨");
   st_markdown ("### Rainbow Rating: " +:+ pretty rating +:+ "/10");
   st_progress rating ("Rainbow Rating: " +:+ pretty rating +:+ "/10");
   st_markdown ("**" +:+ description +:+ "**");
   st_separator].

(** The rating and the description of the [k]-th random draw. *)
Definition rating_of (env : services) (k : nat) : Z * string :=
  let p := {| log := []; transformed_images := None; all_images := None;
              draws := k |} in
  match snd (generate_rainbow_rating env p) with
  | inr (rating, description, _) => (rating, description)
  | inl _ => (0, "")
  end.

(** What showing [urls] renders when [k] draws were made before. *)
Fixpoint display_events (env : services) (style : string) (i k : nat)
    (urls : list string) : list event :=
  match urls with
  | [] => []
  | u :: urls =>
      image_events style i u (rating_of env k).1 (rating_of env k).2
      ++ display_events env style (S i) (S k) urls
  end.

(** [c] only adds to the log, and only events that satisfy [P]. *)
Definition adds {A} (P : event → Prop) (c : M exception page A) : Prop :=
  ∀ p, ∃ evs, log (fst (c p)) = log p ++ evs ∧ Forall P evs.

(** The service calls a run of [main_page] on these inputs may make: the
    image-edit call for the inputs, and fetches of URLs that call
    returned. *)
Definition allowed_call (env : services) (api_key style : string)
    (num_images : Z) (image_size : string) (uploaded_file : option bytes)
    (e : event) : Prop :=
  match e with
  | images_edit_call key req =>
      ∃ data, uploaded_file = Some data ∧ key = api_key ∧
              req = request_for data style num_images image_size
  | requests_get_call u =>
      ∃ data items,
        uploaded_file = Some data ∧
        images_edit env api_key (request_for data style num_images image_size)
          = inr items ∧
        u ∈ url <$> items
  | _ => True
  end.

(** What [main_page] renders for a submission with an image and a key up
    to the [try] of line 238. *)
Definition opening_events (style : string) (data : bytes) : list event :=
  [st_image (Uploaded data) "Your Uploaded Image";
   st_status ("🧙‍♂️ Transforming your image to " +:+ style +:+ " style...");
   st_write "⚙️ Processing initiated";
   st_write ("🔮 Applying " +:+ style +:+ " transformation")].

(** The page once the results [urls] were shown and stored in the session
    state, with [evs] rendered since [p]. *)
Definition shown_results (p : page) (urls : list string) (evs : list event)
    : page :=
  {| log := log p ++ evs;
     transformed_images := Some urls;
     all_images := Some urls;
     draws := (draws p + length urls)%nat |}.

(** Lines 239-313 of [main_page]: the body of its [try]. *)
Definition submission (env : services) (api_key style : string)
    (num_images : Z) (image_size : string) (uploaded_file : option bytes)
    : M exception page unit :=
  image_bytes <- lift (getvalue uploaded_file) ;;
  transformed_image_urls <-
    transform_image_with_openai env api_key image_bytes style num_images
      image_size ;;
  (match transformed_image_urls with
   | _ :: _ =>
       emit (st_toast ("Your " +:+ style +:+ " transformation is ready!")) ;;;
       set_transformed_images transformed_image_urls ;;;
       all_images <- display_images env style 0 transformed_image_urls [] ;;
       set_all_images all_images ;;;
       zip_io <- package env all_images style ;;
       emit (st_download_button
               ("🔮 Download All " +:+ style +:+ " Transformations")
               zip_io
               ("aura_farm_" +:+ lower style +:+ "_transformations.zip")
               "application/zip")
   | [] => ret tt
   end) ;;;
  emit (st_status_update ("✅ " +:+ style +:+ " transformation complete!")
          "complete").

(** ** The sidebar and the entry point *)

(** What the widgets of the form return on this run: the values
    [configure_sidebar] passes on. *)
Record form_values : Type := {
  form_submitted : bool;
  form_api_key : string;
  form_style : string;
  form_num_images : Z;
  form_image_size : string;
  form_uploaded_file : option bytes
}.

(** What [configure_sidebar] puts in the sidebar.  [sb_visitors count]
    is the heading [f"### 👥 Visitors: {count}"], kept as the value that is
    formatted; [sb_about] is the fixed text of lines 166-176. *)
Inductive sidebar_event : Type :=
  | sb_visitors (visitor_count : json)
  | sb_divider
  | sb_info (text : string)
  | sb_text_input (label : string)
  | sb_selectbox (label : string) (options : list string)
  | sb_slider (label : string) (value min_value max_value : Z)
  | sb_file_uploader (label : string) (types : list string)
  | sb_form_submit_button (label : string)
  | sb_about.

(** The whole application: the visitor store and session slot, the
    sidebar, and the main area. *)
Record app_state : Type := AppState {
  visitor_store : world;
  sidebar : list sidebar_event;
  main_area : page
}.

(** An exception leaving [main]: from the tracker or from the page. *)
Inductive failure : Type :=
  | TrackerError (e : exn)
  | PageError (e : exception).

Definition on_store {A} (c : M exn world A) : M failure app_state A :=
  λ a, match c (visitor_store a) with
       | (w, r) =>
           ({| visitor_store := w; sidebar := sidebar a;
               main_area := main_area a |},
            match r with
            | inl e => inl (TrackerError e)
            | inr x => inr x
            end)
       end.

Definition on_page {A} (c : M exception page A) : M failure app_state A :=
  λ a, match c (main_area a) with
       | (p, r) =>
           ({| visitor_store := visitor_store a; sidebar := sidebar a;
               main_area := p |},
            match r with
            | inl e => inl (PageError e)
            | inr x => inr x
            end)
       end.

Definition show (e : sidebar_event) : M failure app_state unit :=
  modify (λ a, {| visitor_store := visitor_store a;
                  sidebar := sidebar a ++ [e];
                  main_area := main_area a |}).

(** [configure_sidebar()]; [uuid] and [today] are what [track_visitor]
    reads from [uuid4] and the clock. *)
Definition configure_sidebar (uuid today : string) (widgets : form_values)
    : M failure app_state (bool * string * string * Z * string * option bytes) :=
  visitor_count <- on_store (track_visitor uuid today) ;;
  show (sb_visitors visitor_count) ;;;
  show sb_divider ;;;
  show (sb_info "**Welcome to Aura Farm! Start here ↓**") ;;;
  show (sb_text_input "OpenAI API Key") ;;;
  let openai_api_key := form_api_key widgets in
  show (sb_selectbox "Choose your transformation style:"
          ["Ghibli"; "Minecraft"; "Chicken-Jockey"; "Humanize"]) ;;;
  let transformation_style := form_style widgets in
  show (sb_slider "Number of variations to generate" 1 1 4) ;;;
  let num_images := form_num_images widgets in
  show (sb_selectbox "Image size" ["1024x1024"; "512x512"; "256x256"]) ;;;
  let image_size := form_image_size widgets in
  show (sb_file_uploader "Upload an image to transform" ["png"; "jpg"; "jpeg"]) ;;;
  let uploaded_file := form_uploaded_file widgets in
  show (sb_form_submit_button "Transform Image") ;;;
  let submitted := form_submitted widgets in
  show sb_divider ;;;
  show sb_about ;;;
  ret (submitted, openai_api_key, transformation_style, num_images, image_size,
       uploaded_file).

(** [main()] *)
Definition main (env : services) (uuid today : string) (widgets : form_values)
    : M failure app_state unit :=
  r <- configure_sidebar uuid today widgets ;;
  let '(submitted, api_key, style, num_images, image_size, uploaded_file) := r in
  on_page (main_page env submitted api_key style num_images image_size
             uploaded_file).

(** What the sidebar shows for a visitor count. *)
Definition sidebar_events (visitor_count : json) : list sidebar_event :=
  [sb_visitors visitor_count;
   sb_divider;
   sb_info "**Welcome to Aura Farm! Start here ↓**";
   sb_text_input "OpenAI API Key";
   sb_selectbox "Choose your transformation style:"
     ["Ghibli"; "Minecraft"; "Chicken-Jockey"; "Humanize"];
   sb_slider "Number of variations to generate" 1 1 4;
   sb_selectbox "Image size" ["1024x1024"; "512x512"; "256x256"];
   sb_file_uploader "Upload an image to transform" ["png"; "jpg"; "jpeg"];
   sb_form_submit_button "Transform Image";
   sb_divider;
   sb_about].

(** ** More sample inputs *)

(** The sample store with a field the tracker does not know. *)
Definition versioned_document : gmap string json :=
  <["version" := JStr "1"]>
  (<["total_count" := JInt 1]>
  (<["daily_counts" := JDict (JInt <$> {["2025-01-01" := 1]})]>
  (<["sessions" := JList (JStr <$> ["a"])]> ∅))).

Definition versioned_world : world :=
  {| file := Some (inr (JDict versioned_document)); writes := [];
     session_id := Some "b" |}.

(** Two clients, each on a first visit. *)
Definition new_calls : list call :=
  [ {| call_slot := None; call_uuid := "b"; call_today := "2025-01-01" |};
    {| call_slot := None; call_uuid := "d"; call_today := "2025-01-02" |} ].

Definition sample_urls : list string :=
  ["https://img.example/0"; "https://img.example/1"; "https://img.example/2"].

(** The sample service with a host that drops the connection on image 1. *)
Definition flaky_env : services :=
  {| images_edit := images_edit sample_env;
     requests_get := λ u,
       if bool_decide (u = "https://img.example/1")
       then inl (Exception "Connection reset by peer")
       else inr {| status_code := 200; content := "PNG " +:+ u |};
     random_randint := random_randint sample_env |}.

Definition sample_widgets : form_values :=
  {| form_submitted := true; form_api_key := "sk-ok"; form_style := "Ghibli";
     form_num_images := 2; form_image_size := "1024x1024";
     form_uploaded_file := Some "bytes" |}.

Definition sample_app (w : world) : app_state :=
  {| visitor_store := w; sidebar := []; main_area := blank_page |}.

(** ** Properties of the visitor tracker *)

Lemma bind_lift {E S A B} (r : E + A) (k : A → M E S B) (s : S) :
  bind (lift r) k s = match r with inr a => k a s | inl e => (s, inl e) end.
Proof. unfold bind, lift. by destruct r. Qed.

Ltac py_step :=
  rewrite bind_lift;
  cbn [getitem setitem append add_one];
  rewrite ?lookup_insert_eq, ?lookup_insert_ne by done.

Lemma to_json_empty : to_json empty_data = empty_visitor_data.
Proof. unfold to_json, empty_visitor_data. simpl. by rewrite fmap_empty. Qed.

Lemma getitem_sessions vd :
  getitem (to_json vd) "sessions" = inr (JList (JStr <$> sessions vd)).
Proof. unfold to_json, getitem. by simplify_map_eq. Qed.

Lemma getitem_total_count vd :
  getitem (to_json vd) "total_count" = inr (JInt (total_count vd)).
Proof. unfold to_json, getitem. by simplify_map_eq. Qed.

Lemma existsb_eq_str (l : list string) sid :
  existsb (eq_str sid) (JStr <$> l) = bool_decide (sid ∈ l).
Proof.
  induction l as [|x l IH]; [done|].
  rewrite fmap_cons. cbn [existsb eq_str]. rewrite IH.
  destruct (decide (x = sid)) as [->|Hne].
  - rewrite (bool_decide_eq_true_2 (sid ∈ sid :: l)); [|by left].
    rewrite (bool_decide_eq_true_2 (sid = sid)); done.
  - rewrite (bool_decide_eq_false_2 (x = sid)); [|done].
    apply bool_decide_ext. rewrite elem_of_cons. intuition congruence.
Qed.

Lemma contains_sessions (l : list string) sid :
  contains (JList (JStr <$> l)) sid = inr (bool_decide (sid ∈ l)).
Proof. unfold contains. by rewrite existsb_eq_str. Qed.

Lemma contains_daily (m : gmap string Z) day :
  contains (JDict (JInt <$> m)) day = inr (bool_decide (is_Some (m !! day))).
Proof.
  unfold contains. f_equal. apply bool_decide_ext.
  rewrite lookup_fmap. by rewrite fmap_is_Some.
Qed.

Lemma count_today_json (m : gmap string Z) today (w : world) :
  (if bool_decide (is_Some (m !! today)) then
     n <- lift (getitem (JDict (JInt <$> m)) today) ;;
     n <- lift (add_one n) ;;
     lift (setitem (JDict (JInt <$> m)) today n)
   else
     lift (setitem (JDict (JInt <$> m)) today (JInt 1))) w
  = (w, inr (JDict (JInt <$> count_today today m)) : exn + json).
Proof.
  unfold count_today, bind, lift, getitem, setitem.
  rewrite lookup_fmap.
  destruct (m !! today) as [k|] eqn:Hm; simpl; by rewrite fmap_insert.
Qed.

Lemma count_today_insert (m : gmap string Z) today :
  count_today today m =
  <[today := match m !! today with Some k => k + 1 | None => 1 end]> m.
Proof. unfold count_today. by destruct (m !! today). Qed.

Lemma current_session_id_run uuid w :
  current_session_id uuid w =
    ({| file := file w; writes := writes w;
        session_id := Some (session_of uuid w) |}, inr (session_of uuid w)).
Proof.
  unfold current_session_id, session_of, bind, get, modify, ret.
  destruct w as [f ws [sid|]]; reflexivity.
Qed.

Lemma to_json_record_new_session sid today vd :
  JDict (<["daily_counts" := JDict (JInt <$> count_today today (daily_counts vd))]>
        (<["total_count" := JInt (total_count vd + 1)]>
        (<["sessions" := JList ((JStr <$> sessions vd) ++ [JStr sid])]>
           (<["total_count" := JInt (total_count vd)]>
           (<["daily_counts" := JDict (JInt <$> daily_counts vd)]>
           (<["sessions" := JList (JStr <$> sessions vd)]> ∅))))))
  = to_json (record_new_session sid today vd).
Proof.
  unfold to_json, record_new_session; simpl. f_equal.
  rewrite fmap_app. simpl.
  apply map_eq. intros k.
  destruct (decide (k = "daily_counts")) as [->|]; [by simplify_map_eq|].
  destruct (decide (k = "total_count")) as [->|]; [by simplify_map_eq|].
  destruct (decide (k = "sessions")) as [->|]; [by simplify_map_eq|].
  by simplify_map_eq.
Qed.

(** The new-session branch on well-shaped data. *)
Lemma track_visitor_new uuid today w vd :
  loads_as w vd →
  session_of uuid w ∉ sessions vd →
  track_visitor uuid today w =
    (let vd' := record_new_session (session_of uuid w) today vd in
     {| file := Some (inr (to_json vd'));
        writes := writes w ++ [to_json vd'];
        session_id := Some (session_of uuid w) |},
     inr (JInt (total_count vd + 1))).
Proof.
  intros Hload Hnew. unfold track_visitor.
  unfold bind at 1, get. rewrite bind_lift, Hload.
  unfold bind at 1. rewrite current_session_id_run.
  rewrite bind_lift, getitem_sessions.
  rewrite bind_lift, contains_sessions.
  rewrite bool_decide_eq_false_2; [|done]. cbn [negb].
  unfold to_json at 1. do 6 py_step.
  rewrite bind_lift, contains_daily.
  unfold bind at 1. rewrite count_today_json.
  py_step. rewrite to_json_record_new_session.
  unfold bind at 1, save_visitor_data, modify. cbn [file writes session_id].
  by rewrite lookup_insert_eq.
Qed.

(** The repeat-session branch on well-shaped data. *)
Lemma track_visitor_seen uuid today w vd :
  loads_as w vd →
  session_of uuid w ∈ sessions vd →
  track_visitor uuid today w =
    ({| file := file w; writes := writes w;
        session_id := Some (session_of uuid w) |},
     inr (JInt (total_count vd))).
Proof.
  intros Hload Hseen. unfold track_visitor.
  unfold bind at 1, get. rewrite bind_lift, Hload.
  unfold bind at 1. rewrite current_session_id_run.
  rewrite bind_lift, getitem_sessions.
  rewrite bind_lift, contains_sessions.
  rewrite bool_decide_eq_true_2; [|done]. cbn [negb].
  unfold lift. by rewrite getitem_total_count.
Qed.

(** [track_visitor] refines [record_visit]. *)
Lemma track_visitor_record_visit uuid today w vd :
  loads_as w vd →
  let vd' := record_visit (session_of uuid w) today vd in
  snd (track_visitor uuid today w) = inr (JInt (total_count vd')) ∧
  loads_as (fst (track_visitor uuid today w)) vd' ∧
  session_id (fst (track_visitor uuid today w)) = Some (session_of uuid w) ∧
  session_of uuid w ∈ sessions vd'.
Proof.
  intros Hload. unfold record_visit.
  destruct (decide (session_of uuid w ∈ sessions vd)) as [Hin|Hnin].
  - rewrite (track_visitor_seen _ _ _ vd), bool_decide_eq_true_2 by done.
    by cbn.
  - rewrite (track_visitor_new _ _ _ vd), bool_decide_eq_false_2 by done.
    cbn. split_and!; [done | done | done |].
    apply elem_of_app. right. by left.
Qed.

Lemma loads_as_absent w :
  file w = None ∨ file w = Some (inl JSONDecodeError) → loads_as w empty_data.
Proof.
  unfold loads_as. intros [-> | ->]; simpl; by rewrite to_json_empty.
Qed.

Lemma sum_counts_insert_fresh (m : gmap string Z) k v :
  m !! k = None → sum_counts (<[k := v]> m) = v + sum_counts m.
Proof.
  intros Hk. unfold sum_counts.
  rewrite map_fold_insert_L; [done | intros; lia | done].
Qed.

Lemma sum_counts_insert_present (m : gmap string Z) k old v :
  m !! k = Some old → sum_counts (<[k := v]> m) = sum_counts m - old + v.
Proof.
  intros Hk.
  rewrite <- (insert_delete_eq m k v).
  rewrite <- (insert_delete_id m k old) at 2 by done.
  rewrite !sum_counts_insert_fresh by apply lookup_delete_eq. lia.
Qed.

Lemma sum_counts_count_today (m : gmap string Z) today :
  sum_counts (count_today today m) = sum_counts m + 1.
Proof.
  unfold count_today. destruct (m !! today) as [k|] eqn:Hm.
  - rewrite (sum_counts_insert_present m today k) by done. lia.
  - rewrite sum_counts_insert_fresh by done. lia.
Qed.

Lemma session_count_snoc (l : list string) sid :
  sid ∉ l → session_count (l ++ [sid]) = session_count l + 1.
Proof.
  intros Hnew. unfold session_count.
  rewrite list_to_set_app_L. simpl. rewrite union_empty_r_L.
  rewrite size_union; [rewrite size_singleton; lia|].
  apply disjoint_singleton_r. by rewrite elem_of_list_to_set.
Qed.

Lemma session_count_NoDup (l : list string) :
  NoDup l → session_count l = Z.of_nat (length l).
Proof.
  intros Hl. unfold session_count. f_equal. by apply size_list_to_set.
Qed.

Lemma visitor_invariant_empty : visitor_invariant empty_data.
Proof. by split. Qed.

Lemma visitor_invariant_record_visit sid today vd :
  visitor_invariant vd → visitor_invariant (record_visit sid today vd).
Proof.
  intros [Htot Hsum]. unfold record_visit. case_bool_decide as Hin; [done|].
  split; simpl.
  - rewrite sum_counts_count_today. lia.
  - rewrite sum_counts_count_today, session_count_snoc by done. lia.
Qed.

Lemma NoDup_record_visit sid today vd :
  NoDup (sessions vd) → NoDup (sessions (record_visit sid today vd)).
Proof.
  intros Hnd. unfold record_visit. case_bool_decide as Hin; [done|].
  simpl. apply NoDup_app. split_and!; [done | | apply NoDup_singleton].
  intros x Hx ->%list_elem_of_singleton. done.
Qed.

(** What the source does on documents that load but are not shaped as
    visitor data, and on a file that cannot be read. *)
Example track_visitor_not_a_dict :
  track_visitor "b" "2025-01-01"
    {| file := Some (inr (JList [])); writes := []; session_id := Some "b" |} =
  ({| file := Some (inr (JList [])); writes := []; session_id := Some "b" |},
   inl TypeError).
Proof. reflexivity. Qed.

Example track_visitor_missing_key :
  track_visitor "b" "2025-01-01"
    {| file := Some (inr (JDict ∅)); writes := []; session_id := Some "b" |} =
  ({| file := Some (inr (JDict ∅)); writes := []; session_id := Some "b" |},
   inl (KeyError "sessions")).
Proof. reflexivity. Qed.

Example track_visitor_unreadable :
  track_visitor "b" "2025-01-01"
    {| file := Some (inl (OtherError "UnicodeDecodeError")); writes := [];
       session_id := None |} =
  ({| file := Some (inl (OtherError "UnicodeDecodeError")); writes := [];
      session_id := None |},
   inl (OtherError "UnicodeDecodeError")).
Proof. reflexivity. Qed.

(** C1: on well-shaped loaded data and a session identifier not yet in
    [sessions], [track_visitor] appends the identifier, adds exactly 1 to
    [total_count], adds 1 to today's entry of [daily_counts] (or sets it to
    1), writes the whole updated document to the store, and returns the
    updated [total_count]. *)
Theorem track_visitor_new_session uuid today w vd :
  loads_as w vd →
  session_of uuid w ∉ sessions vd →
  let sid := session_of uuid w in
  let vd' :=
    {| total_count := total_count vd + 1;
       daily_counts :=
         <[today := match daily_counts vd !! today with
                    | Some k => k + 1
                    | None => 1
                    end]> (daily_counts vd);
       sessions := sessions vd ++ [sid] |} in
  track_visitor uuid today w =
    ({| file := Some (inr (to_json vd'));
        writes := writes w ++ [to_json vd'];
        session_id := Some sid |},
     inr (JInt (total_count vd'))).
Proof.
  intros Hload Hnew sid vd'.
  rewrite (track_visitor_new uuid today w vd Hload Hnew). cbn zeta.
  unfold record_new_session. rewrite count_today_insert. reflexivity.
Qed.

(** C2: [total_count] = sum of [daily_counts] = cardinality of [sessions]
    holds after every call of any series of page loads that starts from
    data satisfying it, whatever the dates; the empty data a missing or
    unparseable store stands for satisfies it. *)
Theorem visitor_invariant_preserved :
  (∀ cs w vd,
     loads_as w vd → visitor_invariant vd →
     snd (visits cs w) = inr ((λ s, JInt (total_count s)) <$> replay cs vd) ∧
     Forall visitor_invariant (replay cs vd) ∧
     loads_as (fst (visits cs w)) (default vd (last (replay cs vd)))) ∧
  (∀ w, file w = None ∨ file w = Some (inl JSONDecodeError) →
     loads_as w empty_data ∧ visitor_invariant empty_data).
Proof.
  split; [|intros w Hw; split; [by apply loads_as_absent | apply visitor_invariant_empty]].
  induction cs as [|c cs IH]; intros w vd Hload Hinv; [by cbn|].
  set (w0 := {| file := file w; writes := writes w; session_id := call_slot c |}).
  assert (Hload0 : loads_as w0 vd) by exact Hload.
  destruct (track_visitor_record_visit (call_uuid c) (call_today c) w0 vd Hload0)
    as (Hret & Hload1 & _ & _).
  change (session_of (call_uuid c) w0)
    with (default (call_uuid c) (call_slot c)) in Hret, Hload1.
  set (vd1 := record_visit (default (call_uuid c) (call_slot c)) (call_today c) vd)
    in Hret, Hload1.
  assert (Hinv1 : visitor_invariant vd1) by by apply visitor_invariant_record_visit.
  destruct (track_visitor (call_uuid c) (call_today c) w0) as [w1 r1] eqn:Hrun.
  cbn [fst snd] in Hret, Hload1. subst r1.
  destruct (IH w1 vd1 Hload1 Hinv1) as (IHret & IHinv & IHload).
  assert (Hvisits : visits (c :: cs) w =
                    match visits cs w1 with
                    | (w2, inr ns) => (w2, inr (JInt (total_count vd1) :: ns))
                    | (w2, inl e) => (w2, inl e)
                    end).
  { cbn [visits]. unfold bind at 1, visit. unfold bind at 1, modify.
    fold w0. rewrite Hrun. unfold bind at 1.
    destruct (visits cs w1) as [w2 [e|ns]]; reflexivity. }
  rewrite Hvisits. cbn [replay]. fold vd1.
  destruct (visits cs w1) as [w2 [e|ns]]; cbn [fst snd] in *; [done|].
  injection IHret as ->. split_and!.
  - by rewrite fmap_cons.
  - by constructor.
  - rewrite last_cons. by destruct (last (replay cs vd1)).
Qed.

(** C3: for a session identifier already in [sessions], [track_visitor]
    changes nothing in the visitor data and writes nothing; and a second
    call with the session identifier of a first one leaves the store, hence
    [total_count] and [daily_counts], as the first call left it. *)
Theorem track_visitor_repeat_session :
  (∀ uuid today w vd,
     loads_as w vd →
     session_of uuid w ∈ sessions vd →
     track_visitor uuid today w =
       ({| file := file w; writes := writes w;
           session_id := Some (session_of uuid w) |},
        inr (JInt (total_count vd)))) ∧
  (∀ uuid today uuid' today' w vd,
     loads_as w vd →
     let first := track_visitor uuid today w in
     track_visitor uuid' today' (fst first) = (fst first, snd first)).
Proof.
  split; [exact track_visitor_seen|].
  intros uuid today uuid' today' w vd Hload first.
  destruct (track_visitor_record_visit uuid today w vd Hload)
    as (Hret & Hload1 & Hsid & Hin).
  fold first in Hret, Hload1, Hsid.
  destruct first as [w1 r1]. cbn [fst snd] in *.
  assert (Hsame : session_of uuid' w1 = session_of uuid w)
    by (unfold session_of at 1; by rewrite Hsid).
  rewrite (track_visitor_seen uuid' today' w1 _ Hload1) by by rewrite Hsame.
  rewrite Hsame, Hret, <- Hsid. by destruct w1.
Qed.


(** C10: an identifier is appended only when absent, so from data whose
    [sessions] list has no duplicates the data in the store after the call,
    and the document written if any, again has none, and the length of the
    list is the cardinality of the set. *)
Theorem sessions_stay_duplicate_free uuid today w vd :
  loads_as w vd →
  NoDup (sessions vd) →
  let w' := fst (track_visitor uuid today w) in
  let vd' := record_visit (session_of uuid w) today vd in
  loads_as w' vd' ∧
  (writes w' = writes w ∨ writes w' = writes w ++ [to_json vd']) ∧
  NoDup (sessions vd') ∧
  session_count (sessions vd') = Z.of_nat (length (sessions vd')).
Proof.
  intros Hload Hnd w' vd'.
  assert (Hnd' : NoDup (sessions vd')) by by apply NoDup_record_visit.
  split_and!; [| | done | by apply session_count_NoDup].
  - by apply track_visitor_record_visit.
  - subst w' vd'. unfold record_visit.
    destruct (decide (session_of uuid w ∈ sessions vd)) as [Hin|Hnin].
    + left. by rewrite (track_visitor_seen _ _ _ vd).
    + right. rewrite (track_visitor_new _ _ _ vd), bool_decide_eq_false_2 by done.
      reflexivity.
Qed.

(** ** Properties of the prompt resolver and of the pipeline *)

Lemma get_prompt_unknown style_type :
  style_type ∉ ["Ghibli"; "Minecraft"; "Chicken-Jockey"; "Humanize"] →
  get_prompt_for_transformation style_type = fallback_prompt.
Proof.
  intros Hnot. unfold get_prompt_for_transformation, style_prompts.
  rewrite !lookup_insert_ne; [by rewrite lookup_empty | ..];
    intros <-; apply Hnot; set_solver.
Qed.

(** C5: [get_prompt_for_transformation] is a total function; each of the
    four styles has its fixed instruction, every other input gets the
    generic fallback, and no result is the empty string. *)
Theorem get_prompt_for_transformation_total :
  get_prompt_for_transformation "Ghibli" =
    "Transform this image into Studio Ghibli animation style with vibrant colors, whimsical elements, and a dreamy atmosphere." ∧
  get_prompt_for_transformation "Minecraft" =
    "Transform this image into Minecraft style with blocky pixelated texture, bright colors, and cubic shapes." ∧
  get_prompt_for_transformation "Chicken-Jockey" =
    "Transform this image into a blocky Minecraft-style character cool green zombie riding a chicken." ∧
  get_prompt_for_transformation "Humanize" =
    "Transform this image into a realistic human-like representation with natural proportions, detailed features, and lifelike textures." ∧
  (∀ style_type,
     style_type ∉ ["Ghibli"; "Minecraft"; "Chicken-Jockey"; "Humanize"] →
     get_prompt_for_transformation style_type =
       "Transform this image in a creative way.") ∧
  (∀ style_type, get_prompt_for_transformation style_type ≠ "").
Proof.
  split_and!; [reflexivity | reflexivity | reflexivity | reflexivity
              | exact get_prompt_unknown |].
  intros s.
  destruct (decide (s ∈ ["Ghibli"; "Minecraft"; "Chicken-Jockey"; "Humanize"]))
    as [Hin|Hnot].
  - repeat (apply elem_of_cons in Hin as [->|Hin]; [done|]).
    by apply elem_of_nil in Hin.
  - by rewrite get_prompt_unknown.
Qed.

Lemma rendered_nil p : rendered p [] = p.
Proof. destruct p. unfold rendered. simpl. by rewrite app_nil_r. Qed.

Lemma rendered_app p evs evs' :
  rendered (rendered p evs) evs' = rendered p (evs ++ evs').
Proof. unfold rendered. simpl. by rewrite app_assoc. Qed.

Lemma bind_emit {A} (e : event) (k : unit → M exception page A) p :
  bind (emit e) k p = k tt (rendered p [e]).
Proof. reflexivity. Qed.

Lemma bind_ret {E S A B} (a : A) (k : A → M E S B) (s : S) :
  bind (ret a) k s = k a s.
Proof. reflexivity. Qed.

Lemma bind_modify {E S A} (f : S → S) (k : unit → M E S A) (s : S) :
  bind (modify f) k s = k tt (f s).
Proof. reflexivity. Qed.

Lemma bind_run {E S A B} (c : M E S A) (k : A → M E S B) (s s' : S) (a : A) :
  c s = (s', inr a) → bind c k s = k a s'.
Proof. intros Hc. unfold bind. by rewrite Hc. Qed.

Lemma bind_assoc {E S A B C} (c : M E S A) (f : A → M E S B)
    (k : B → M E S C) (s : S) :
  bind (bind c f) k s = bind c (λ x, bind (f x) k) s.
Proof. unfold bind. by destruct (c s) as [s' [e|a]]. Qed.

Lemma packed_entries_cons style i r rs :
  packed_entries style i (r :: rs) =
  (if status_code r =? 200 then [(entry_name style i, content r)] else [])
  ++ packed_entries style (S i) rs.
Proof.
  unfold packed_entries. rewrite imap_cons. cbn [omap list_omap fst snd].
  rewrite Nat.add_0_r.
  rewrite (imap_ext _ (λ j r0, ((S i + j)%nat, r0))) by (intros; cbn; f_equal; lia).
  by destruct (status_code r =? 200).
Qed.

Section PipelineProperties.
Variable env : services.

Lemma package_loop_run style urls :
  ∀ rs i zipf p,
    Forall2 (λ u r, requests_get env u = inr r) urls rs →
    package_loop env style i urls zipf p =
      (rendered p (package_events i urls rs),
       inr (zipf ++ packed_entries style i rs)).
Proof.
  induction urls as [|u urls IH]; intros rs i zipf p Hget.
  - apply Forall2_nil_inv_l in Hget as ->. cbn.
    by rewrite rendered_nil, app_nil_r.
  - apply Forall2_cons_inv_l in Hget as (r & rs' & Hr & Hrs & ->).
    cbn [package_loop package_events]. rewrite bind_emit, bind_lift, Hr.
    rewrite packed_entries_cons. unfold fetch_events.
    destruct (status_code r =? 200) eqn:Hstatus.
    + rewrite bind_ret. rewrite (IH rs') by done.
      by rewrite rendered_app, <- app_assoc.
    + rewrite bind_assoc, bind_emit, bind_ret. rewrite (IH rs') by done.
      rewrite !rendered_app. reflexivity.
Qed.

Lemma emit_run (e : event) p : emit e p = (rendered p [e], inr tt).
Proof. reflexivity. Qed.

Lemma gallery_run p : gallery p = (rendered p gallery_events, inr tt).
Proof.
  unfold gallery. rewrite !bind_emit, emit_run. by rewrite !rendered_app.
Qed.

Lemma elem_of_packed_entries style rs name data :
  (name, data) ∈ packed_entries style 0 rs ↔
  ∃ i r, rs !! i = Some r ∧ status_code r = 200 ∧
         name = entry_name style i ∧ data = content r.
Proof.
  unfold packed_entries. rewrite list_elem_of_omap. split.
  - intros ([j r] & Hin & Hsome).
    apply elem_of_lookup_imap in Hin as (i & r' & Heq & Hlook).
    injection Heq as -> ->. cbn [fst snd] in Hsome.
    destruct (status_code r' =? 200) eqn:Hst; [|done].
    injection Hsome as <- <-. exists i, r'. split_and!; [done | lia | done | done].
  - intros (i & r & Hlook & Hst & -> & ->).
    exists (i, r). split.
    + apply elem_of_lookup_imap. by exists i, r.
    + cbn [fst snd]. by rewrite Hst.
Qed.

Lemma transform_image_with_openai_run api_key image_data style num_images
    size p :
  transform_image_with_openai env api_key image_data style num_images size p =
  match images_edit env api_key
          (request_for image_data style num_images size) with
  | inr data =>
      (rendered p
         [images_edit_call api_key
            (request_for image_data style num_images size)],
       inr (url <$> data))
  | inl e =>
      (rendered p
         [images_edit_call api_key
            (request_for image_data style num_images size);
          st_error ("Error transforming image: " +:+ str e)],
       inr [])
  end.
Proof.
  unfold transform_image_with_openai, try_except. cbn zeta.
  fold (request_for image_data style num_images size).
  rewrite bind_emit, bind_lift.
  destruct (images_edit env api_key _) as [e|data]; [|reflexivity].
  rewrite bind_emit. unfold ret. by rewrite rendered_app.
Qed.

(** C6: [transform_image_with_openai] returns the URL of each item of the
    response in response order (four URLs for a response of four items),
    and when the image-edit call raises it returns the empty list instead
    of raising, after showing the error with the upstream message. *)
Theorem transform_image_with_openai_result :
  (∀ api_key image_data style num_images size p data,
     images_edit env api_key (request_for image_data style num_images size)
       = inr data →
     transform_image_with_openai env api_key image_data style num_images size p =
       (rendered p
          [images_edit_call api_key
             (request_for image_data style num_images size)],
        inr (url <$> data))) ∧
  (∀ api_key image_data style size p a b c d,
     images_edit env api_key (request_for image_data style 4 size)
       = inr [a; b; c; d] →
     snd (transform_image_with_openai env api_key image_data style 4 size p) =
       inr [url a; url b; url c; url d]) ∧
  (∀ api_key image_data style num_images size p e,
     images_edit env api_key (request_for image_data style num_images size)
       = inl e →
     transform_image_with_openai env api_key image_data style num_images size p =
       (rendered p
          [images_edit_call api_key
             (request_for image_data style num_images size);
           st_error ("Error transforming image: " +:+ str e)],
        inr [])).
Proof.
  split_and!.
  - intros * Hdata. by rewrite transform_image_with_openai_run, Hdata.
  - intros * Hdata. by rewrite transform_image_with_openai_run, Hdata.
  - intros * Herr. by rewrite transform_image_with_openai_run, Herr.
Qed.

(** C7: [package] skips every item whose fetch answers with a status other
    than 200, shows an error for it and goes on; each fetched item becomes
    an entry named [{style.lower()}_transform_{index}.png] with the 1-based
    position of its URL in the requested sequence.  In turn: what one
    iteration of the loop does; the archive and the page when every fetch
    returns a response; which entries the archive has; and three URLs whose
    second fetch answers 404, where the archive has the two entries of
    indices 1 and 3. *)
Theorem package_skips_failed_fetches :
  (∀ style i u urls zipf r p,
     requests_get env u = inr r →
     package_loop env style i (u :: urls) zipf p =
       if status_code r =? 200
       then package_loop env style (S i) urls
              (zipf ++ [(entry_name style i, content r)])
              (rendered p [requests_get_call u])
       else package_loop env style (S i) urls zipf
              (rendered p
                 [requests_get_call u;
                  st_error ("Failed to fetch image " +:+ pretty (i + 1)%nat
                            +:+ ". Error code: "
                            +:+ pretty (status_code r))])) ∧
  (∀ style urls rs p,
     Forall2 (λ u r, requests_get env u = inr r) urls rs →
     package env urls style p =
       (rendered p (package_events 0 urls rs),
        inr (packed_entries style 0 rs))) ∧
  (∀ style rs name data,
     (name, data) ∈ packed_entries style 0 rs ↔
     ∃ i r, rs !! i = Some r ∧ status_code r = 200 ∧
            name = lower style +:+ "_transform_" +:+ pretty (i + 1)%nat
                   +:+ ".png" ∧
            data = content r) ∧
  (∀ style u1 u2 u3 r1 r2 r3 p,
     requests_get env u1 = inr r1 → status_code r1 = 200 →
     requests_get env u2 = inr r2 → status_code r2 = 404 →
     requests_get env u3 = inr r3 → status_code r3 = 200 →
     package env [u1; u2; u3] style p =
       (rendered p
          [requests_get_call u1;
           requests_get_call u2;
           st_error "Failed to fetch image 2. Error code: 404";
           requests_get_call u3],
        inr [(lower style +:+ "_transform_1.png", content r1);
             (lower style +:+ "_transform_3.png", content r3)])).
Proof.
  split_and!.
  - intros style i u urls zipf r p Hr.
    cbn [package_loop]. rewrite bind_emit, bind_lift, Hr.
    destruct (status_code r =? 200).
    + by rewrite bind_ret.
    + by rewrite bind_assoc, bind_emit, bind_ret, rendered_app.
  - intros style urls rs p Hget. unfold package.
    by rewrite (package_loop_run style urls rs).
  - intros. apply elem_of_packed_entries.
  - intros style u1 u2 u3 r1 r2 r3 p H1 S1 H2 S2 H3 S3. unfold package.
    rewrite (package_loop_run style [u1; u2; u3] [r1; r2; r3])
      by (repeat constructor; done).
    rewrite !packed_entries_cons. cbn [package_events]. unfold fetch_events.
    rewrite S1, S2, S3. reflexivity.
Qed.

Lemma packed_entries_none style rs :
  Forall (λ r, status_code r ≠ 200) rs → ∀ i, packed_entries style i rs = [].
Proof.
  induction 1 as [|r rs Hr _ IH]; intros i; [done|].
  rewrite packed_entries_cons, IH.
  by apply Z.eqb_neq in Hr as ->.
Qed.

Lemma display_images_run style urls :
  ∀ i acc p, ∃ p',
    display_images env style i urls acc p = (p', inr (acc ++ urls)).
Proof.
  induction urls as [|u urls IH]; intros i acc p.
  - exists p. cbn. by rewrite app_nil_r.
  - cbn [display_images]. rewrite bind_emit.
    unfold bind at 1, generate_rainbow_rating.
    unfold bind at 1, get. unfold bind at 1, modify. unfold ret at 1.
    rewrite !bind_emit.
    edestruct IH as (p' & ->). exists p'. by rewrite <- app_assoc.
Qed.

(** C8: when every fetch answers with a status other than 200, [package]
    returns the archive with no entry instead of raising, and [main_page]
    offers that empty archive for download and ends normally. *)
Theorem package_empty_archive :
  (∀ style urls rs p,
     Forall2 (λ u r, requests_get env u = inr r) urls rs →
     Forall (λ r, status_code r ≠ 200) rs →
     snd (package env urls style p) = inr []) ∧
  (∀ api_key style num_images image_size data items rs p,
     api_key ≠ "" →
     images_edit env api_key (request_for data style num_images image_size)
       = inr items →
     items ≠ [] →
     Forall2 (λ u r, requests_get env u = inr r) (url <$> items) rs →
     Forall (λ r, status_code r ≠ 200) rs →
     let run :=
       main_page env true api_key style num_images image_size (Some data) p in
     snd run = inr tt ∧
     st_download_button ("🔮 Download All " +:+ style +:+ " Transformations")
       [] ("aura_farm_" +:+ lower style +:+ "_transformations.zip")
       "application/zip" ∈ log (fst run)).
Proof.
  split.
  - intros style urls rs p Hget Hfail. unfold package.
    rewrite (package_loop_run style urls rs) by done.
    cbn [snd]. by rewrite packed_entries_none.
  - intros api_key style num_images image_size data items rs p
      Hkey Hedit Hitems Hget Hfail run.
    assert (Hrun : ∃ p' evs, run =
      (rendered p'
         (evs ++ [st_download_button
             ("🔮 Download All " +:+ style +:+ " Transformations") []
             ("aura_farm_" +:+ lower style +:+ "_transformations.zip")
             "application/zip";
           st_status_update ("✅ " +:+ style +:+ " transformation complete!")
             "complete"] ++ gallery_events), inr tt)).
    { subst run. unfold main_page. rewrite bind_emit.
      assert (Htruthy : truthy api_key = true) by by destruct api_key.
      rewrite Htruthy. cbn [andb is_not_None].
      repeat (rewrite bind_assoc || rewrite bind_emit).
      unfold bind at 1, try_except.
      rewrite bind_lift. cbn [getvalue].
      unfold bind at 1.
      rewrite transform_image_with_openai_run, Hedit.
      destruct items as [|item items]; [done|]. rewrite fmap_cons in *.
      repeat (rewrite bind_assoc || rewrite bind_emit).
      unfold set_transformed_images. rewrite bind_modify, bind_assoc.
      match goal with
      | |- context [bind (display_images _ _ _ _ _) _ ?q] =>
          destruct (display_images_run style (url item :: (url <$> items))
                      0%nat [] q) as (p' & Hdisp);
          rewrite (bind_run _ _ _ _ _ Hdisp)
      end.
      rewrite app_nil_l. unfold set_all_images.
      rewrite bind_assoc, bind_modify, bind_assoc. unfold package.
      rewrite (bind_run _ _ _ _ _ (package_loop_run style _ rs 0%nat [] _ Hget)).
      rewrite packed_entries_none by done.
      rewrite !bind_emit, emit_run, gallery_run, !rendered_app.
      eexists _, (package_events 0 (url item :: (url <$> items)) rs).
      reflexivity. }
    destruct Hrun as (p' & evs & ->). cbn [fst snd log rendered].
    split; [done|]. rewrite !elem_of_app. right. right. left.
    apply list_elem_of_here.
Qed.

(** C9: a submission without an uploaded image, or without an API key,
    shows one warning and the gallery and nothing else: the image-edit call
    is not issued and no result is fetched. *)
Theorem main_page_validation api_key style num_images image_size uploaded_file p :
  uploaded_file = None ∨ api_key = "" →
  let shown :=
    match uploaded_file with
    | Some data => [st_image (Uploaded data) "Your Uploaded Image"]
    | None => []
    end in
  let warning :=
    match uploaded_file with
    | None => "Please upload an image to transform."
    | Some _ => "Please provide your OpenAI API key."
    end in
  let evs := shown ++ [st_warning warning] ++ gallery_events in
  main_page env true api_key style num_images image_size uploaded_file p =
    (rendered p evs, inr tt) ∧
  Forall (λ e, is_service_call e = false) evs ∧
  List.filter is_warning evs = [st_warning warning].
Proof.
  intros Hmissing shown warning evs. subst shown warning evs.
  unfold main_page.
  destruct uploaded_file as [data|].
  - destruct Hmissing as [?| ->]; [done|].
    rewrite bind_emit. cbn [andb is_not_None truthy truthy_upload negb].
    rewrite bind_emit, gallery_run, !rendered_app.
    split_and!; [done | by repeat constructor | done].
  - rewrite bind_ret. cbn [andb is_not_None truthy_upload negb].
    rewrite bind_emit, gallery_run, !rendered_app.
    split_and!; [done | by repeat constructor | done].
Qed.

End PipelineProperties.


(** ** Further properties of the visitor tracker *)

#[local] Set Warnings "-clear-no-such-hyp".

(** The four ways a call can end, whatever document the store holds. *)
Lemma track_visitor_cases uuid today w :
  let sid := session_of uuid w in
  let w1 := {| file := file w; writes := writes w; session_id := Some sid |} in
  (∃ e, load_visitor_data (file w) = inl e ∧
        track_visitor uuid today w = (w, inl e)) ∨
  (∃ e, track_visitor uuid today w = (w1, inl e)) ∨
  (∃ d n, load_visitor_data (file w) = inr (JDict d) ∧
          d !! "total_count" = Some n ∧
          track_visitor uuid today w = (w1, inr n)) ∨
  (∃ d n, d !! "total_count" = Some n ∧
          track_visitor uuid today w =
            ({| file := Some (inr (JDict d));
                writes := writes w ++ [JDict d];
                session_id := Some sid |}, inr n)).
Proof.
  intros sid w1.
  destruct (track_visitor uuid today w) as [w' r] eqn:Hrun.
  revert Hrun. unfold track_visitor.
  unfold bind at 1, get. rewrite bind_lift.
  destruct (load_visitor_data (file w)) as [e|v] eqn:Hload;
    [intros [= <- <-]; left; eauto|].
  unfold bind at 1. rewrite current_session_id_run. fold sid w1.
  destruct v as [| | | | |?|d];
    try (rewrite bind_lift; intros [= <- <-]; right; left; by eexists).
  rewrite bind_lift. cbn [getitem].
  destruct (d !! "sessions") as [ss|] eqn:Hss;
    [|intros [= <- <-]; right; left; by eexists].
  rewrite bind_lift.
  destruct (contains ss sid) as [e|seen] eqn:Hseen;
    [intros [= <- <-]; right; left; by eexists|].
  destruct seen; cbn [negb].
  - unfold lift. cbn [getitem].
    destruct (d !! "total_count") as [n|] eqn:Hn; intros [= <- <-].
    + right. right. left. by exists d, n.
    + right. left. by eexists.
  - rewrite bind_lift.
    destruct (append ss (JStr sid)) as [e|ss'] eqn:Happ;
      [intros [= <- <-]; right; left; by eexists|].
    do 2 py_step.
    destruct (d !! "total_count") as [n|] eqn:Hn;
      [|intros [= <- <-]; right; left; by eexists].
    rewrite bind_lift.
    destruct (add_one n) as [e|n'] eqn:Hadd;
      [intros [= <- <-]; right; left; by eexists|].
    do 2 py_step.
    destruct (d !! "daily_counts") as [daily|] eqn:Hdaily;
      [|intros [= <- <-]; right; left; by eexists].
    rewrite bind_lift.
    destruct (contains daily today) as [e|counted] eqn:Hcounted;
      [intros [= <- <-]; right; left; by eexists|].
    assert (Hupd : ∃ r,
      (if counted then
         n0 <- lift (getitem daily today) ;;
         n1 <- lift (add_one n0) ;;
         lift (setitem daily today n1)
       else lift (setitem daily today (JInt 1))) w1 = (w1, r : exn + json)).
    { destruct counted; [|eexists; reflexivity].
      rewrite bind_lift.
      destruct (getitem daily today) as [?|j]; [eexists; reflexivity|].
      rewrite bind_lift. destruct (add_one j); eexists; reflexivity. }
    destruct Hupd as [[e|daily'] Hupd]; unfold bind at 1; rewrite Hupd.
    + intros [= <- <-]. right; left; by eexists.
    + py_step. unfold bind at 1, save_visitor_data, modify.
      cbn [file writes session_id]. unfold lift. cbn [getitem].
      rewrite lookup_insert_eq. subst w1. cbn [file writes session_id].
      intros [= <- <-]. right. right. right. eexists _, n'.
      split; [|reflexivity]. by rewrite lookup_insert_ne, lookup_insert_eq.
Qed.


(** X2: whatever the store holds, the count a call returns is the
    [total_count] of the document the store holds after the call. *)
Theorem track_visitor_returns_stored_count uuid today w n :
  snd (track_visitor uuid today w) = inr n →
  ∃ d, load_visitor_data (file (fst (track_visitor uuid today w))) = inr (JDict d) ∧
       d !! "total_count" = Some n.
Proof.
  destruct (track_visitor_cases uuid today w)
    as [(e & _ & ->) | [(e & ->) | [(d & k & Hd & Hk & ->) | (d & k & Hk & ->)]]];
    cbn; [done | done | |]; intros [= <-]; by exists d.
Qed.

(** X3: documents that load but are not visitor data, and files that cannot
    be read.  A document that is not a JSON object raises [TypeError]; an
    object without ["sessions"] raises [KeyError]; both after the session
    identifier has been assigned.  A read error other than
    [JSONDecodeError] is raised before that.  Nothing is written. *)
Theorem track_visitor_ill_shaped :
  (∀ uuid today w v,
     load_visitor_data (file w) = inr v →
     (∀ d, v ≠ JDict d) →
     track_visitor uuid today w =
       ({| file := file w; writes := writes w;
           session_id := Some (session_of uuid w) |}, inl TypeError)) ∧
  (∀ uuid today w d,
     load_visitor_data (file w) = inr (JDict d) →
     d !! "sessions" = None →
     track_visitor uuid today w =
       ({| file := file w; writes := writes w;
           session_id := Some (session_of uuid w) |},
        inl (KeyError "sessions"))) ∧
  (∀ uuid today w e,
     file w = Some (inl e) →
     e ≠ JSONDecodeError →
     track_visitor uuid today w = (w, inl e)).
Proof.
  split_and!.
  - intros uuid today w v Hload Hv. unfold track_visitor.
    unfold bind at 1, get. rewrite bind_lift, Hload.
    unfold bind at 1. rewrite current_session_id_run, bind_lift.
    destruct v; try reflexivity. by destruct (Hv d).
  - intros uuid today w d Hload Hd. unfold track_visitor.
    unfold bind at 1, get. rewrite bind_lift, Hload.
    unfold bind at 1. rewrite current_session_id_run, bind_lift.
    cbn [getitem]. by rewrite Hd.
  - intros uuid today w e Hfile He. unfold track_visitor.
    unfold bind at 1, get. rewrite bind_lift, Hfile.
    by destruct e.
Qed.

(** The new-session branch on a document that has the three fields and
    possibly others. *)
Lemma track_visitor_new_fields uuid today w d l k m :
  load_visitor_data (file w) = inr (JDict d) →
  d !! "sessions" = Some (JList (JStr <$> l)) →
  d !! "total_count" = Some (JInt k) →
  d !! "daily_counts" = Some (JDict (JInt <$> m)) →
  session_of uuid w ∉ l →
  track_visitor uuid today w =
    (let doc :=
       JDict (<["daily_counts" := JDict (JInt <$> count_today today m)]>
             (<["total_count" := JInt (k + 1)]>
             (<["sessions" := JList (JStr <$> l ++ [session_of uuid w])]> d))) in
     {| file := Some (inr doc);
        writes := writes w ++ [doc];
        session_id := Some (session_of uuid w) |},
     inr (JInt (k + 1))).
Proof.
  intros Hload Hs Ht Hd Hnew. unfold track_visitor.
  unfold bind at 1, get. rewrite bind_lift, Hload.
  unfold bind at 1. rewrite current_session_id_run.
  rewrite bind_lift. cbn [getitem]. rewrite Hs.
  rewrite bind_lift, contains_sessions.
  rewrite bool_decide_eq_false_2; [|done]. cbn [negb].
  do 3 py_step. rewrite Ht. do 3 py_step. rewrite Hd.
  rewrite bind_lift, contains_daily.
  unfold bind at 1. rewrite count_today_json.
  py_step.
  unfold bind at 1, save_visitor_data, modify. cbn [file writes session_id].
  unfold lift. cbn [getitem].
  rewrite lookup_insert_eq. by rewrite fmap_app.
Qed.

(** X4: fields of the stored object that the tracker does not know are
    written back untouched when a new session is counted. *)
Theorem track_visitor_keeps_other_fields uuid today w d l k m :
  load_visitor_data (file w) = inr (JDict d) →
  d !! "sessions" = Some (JList (JStr <$> l)) →
  d !! "total_count" = Some (JInt k) →
  d !! "daily_counts" = Some (JDict (JInt <$> m)) →
  session_of uuid w ∉ l →
  ∃ d',
    file (fst (track_visitor uuid today w)) = Some (inr (JDict d')) ∧
    d' !! "sessions" = Some (JList (JStr <$> l ++ [session_of uuid w])) ∧
    d' !! "total_count" = Some (JInt (k + 1)) ∧
    d' !! "daily_counts" = Some (JDict (JInt <$> count_today today m)) ∧
    (∀ key, key ∉ ["sessions"; "total_count"; "daily_counts"] →
            d' !! key = d !! key).
Proof.
  intros Hload Hs Ht Hd Hnew.
  rewrite (track_visitor_new_fields uuid today w d l k m) by done.
  cbn [fst file]. eexists. split; [reflexivity|].
  split_and!.
  - do 2 (rewrite lookup_insert_ne by done). by rewrite lookup_insert_eq.
  - rewrite lookup_insert_ne by done. by rewrite lookup_insert_eq.
  - by rewrite lookup_insert_eq.
  - intros key Hkey.
    rewrite !lookup_insert_ne; [done | ..]; intros <-; apply Hkey; set_solver.
Qed.

(** *** Series of page loads *)

Lemma final_data_cons c cs vd :
  final_data (c :: cs) vd =
  final_data cs (record_visit (call_session c) (call_today c) vd).
Proof.
  unfold final_data. cbn [replay]. fold (call_session c).
  rewrite last_cons. by destruct (last (replay cs _)).
Qed.

Lemma visit_run c w vd :
  loads_as w vd →
  let vd' := record_visit (call_session c) (call_today c) vd in
  ∃ w', visit c w = (w', inr (JInt (total_count vd'))) ∧ loads_as w' vd' ∧
        (call_session c ∈ sessions vd →
         file w' = file w ∧ writes w' = writes w).
Proof.
  intros Hload vd'. unfold visit. rewrite bind_modify.
  set (w0 := {| file := file w; writes := writes w; session_id := call_slot c |}).
  assert (Hload0 : loads_as w0 vd) by exact Hload.
  destruct (track_visitor_record_visit (call_uuid c) (call_today c) w0 vd Hload0)
    as (Hret & Hload1 & _ & _).
  change (session_of (call_uuid c) w0) with (call_session c) in Hret, Hload1.
  exists (fst (track_visitor (call_uuid c) (call_today c) w0)).
  subst vd'. split_and!; [|done|].
  - rewrite <- Hret. by destruct (track_visitor _ _ w0).
  - intros Hin. by rewrite (track_visitor_seen _ _ w0 vd).
Qed.

(** The code follows the typed replay. *)
Lemma visits_replay cs :
  ∀ w vd,
    loads_as w vd →
    snd (visits cs w) = inr ((λ s, JInt (total_count s)) <$> replay cs vd) ∧
    loads_as (fst (visits cs w)) (final_data cs vd).
Proof.
  induction cs as [|c cs IH]; intros w vd Hload; [by cbn|].
  destruct (visit_run c w vd Hload) as (w1 & Hrun & Hload1 & _).
  rewrite final_data_cons. cbn [visits replay]. fold (call_session c).
  rewrite (bind_run _ _ _ _ _ Hrun).
  destruct (IH w1 _ Hload1) as (IHret & IHload).
  unfold bind. destruct (visits cs w1) as [w2 [e|ns]]; cbn [fst snd] in *; [done|].
  injection IHret as ->. by rewrite fmap_cons.
Qed.

Lemma final_data_first_visits cs :
  ∀ vd,
    let firsts := first_visits (sessions vd) cs in
    sessions (final_data cs vd) = sessions vd ++ (call_session <$> firsts) ∧
    total_count (final_data cs vd) = total_count vd + Z.of_nat (length firsts) ∧
    ∀ date,
      count_on (daily_counts (final_data cs vd)) date =
      count_on (daily_counts vd) date +
      Z.of_nat (length (filter (λ c, call_today c = date) firsts)).
Proof.
  induction cs as [|c cs IH]; intros vd firsts; subst firsts.
  - cbn. rewrite app_nil_r. split_and!; [done | lia | intros; lia].
  - rewrite final_data_cons. cbn [first_visits]. unfold record_visit.
    case_bool_decide as Hin; [apply IH|].
    destruct (IH (record_new_session (call_session c) (call_today c) vd))
      as (Hs & Ht & Hd).
    cbn [sessions total_count daily_counts record_new_session] in Hs, Ht, Hd.
    rewrite Hs, Ht. split_and!.
    + by rewrite fmap_cons, <- app_assoc.
    + cbn [length]. lia.
    + intros date. rewrite Hd, filter_cons.
      unfold count_on, count_today.
      destruct (decide (call_today c = date)) as [<-|Hne].
      * cbn [length].
        destruct (daily_counts vd !! call_today c);
          rewrite lookup_insert_eq; cbn; lia.
      * destruct (daily_counts vd !! call_today c);
          rewrite lookup_insert_ne by done; lia.
Qed.

Lemma length_first_visits cs :
  ∀ seen,
    length (first_visits seen cs) =
    size (list_to_set (call_session <$> cs) ∖ list_to_set seen : gset string).
Proof.
  induction cs as [|c cs IH]; intros seen.
  - cbn. by rewrite difference_disjoint_L, size_empty by set_solver.
  - cbn [first_visits]. rewrite fmap_cons, list_to_set_cons.
    case_bool_decide as Hin.
    + rewrite IH. f_equal.
      apply set_eq. intros x. rewrite !elem_of_difference, elem_of_union,
        elem_of_singleton, !elem_of_list_to_set.
      split; [tauto|]. intros [[->|?] ?]; tauto.
    + cbn [length]. rewrite IH, list_to_set_app_L.
      replace (({[call_session c]} ∪ list_to_set (call_session <$> cs))
                 ∖ list_to_set seen : gset string)
        with ({[call_session c]} ∪
              (list_to_set (call_session <$> cs)
                 ∖ (list_to_set seen ∪ list_to_set [call_session c]))
              : gset string).
      * match goal with
        | |- _ = size ({[?a]} ∪ ?Y) =>
            rewrite (size_union (C:=gset string) {[a]} Y) by set_solver
        end.
        by rewrite size_singleton.
      * apply set_eq. intros x. rewrite elem_of_union, !elem_of_difference,
          !elem_of_union, elem_of_singleton, !elem_of_list_to_set,
          list_elem_of_singleton.
        destruct (decide (x = call_session c)) as [->|]; tauto.
Qed.

Lemma list_to_set_first_visits cs :
  ∀ seen,
    list_to_set (seen ++ (call_session <$> first_visits seen cs)) =@{gset string}
    list_to_set seen ∪ list_to_set (call_session <$> cs).
Proof.
  induction cs as [|c cs IH]; intros seen.
  - cbn. rewrite app_nil_r. set_solver.
  - cbn [first_visits]. rewrite fmap_cons, list_to_set_cons.
    case_bool_decide as Hin.
    + rewrite IH.
      assert (call_session c ∈ (list_to_set seen : gset string))
        by by apply elem_of_list_to_set.
      set_solver.
    + rewrite fmap_cons, cons_middle, app_assoc, IH, list_to_set_app_L.
      set_solver.
Qed.

Lemma replay_new_sessions cs :
  ∀ vd,
    NoDup (call_session <$> cs) →
    (∀ sid, sid ∈ call_session <$> cs → sid ∉ sessions vd) →
    total_count <$> replay cs vd =
    (λ k, total_count vd + Z.of_nat k) <$> seq 1 (length cs).
Proof.
  induction cs as [|c cs IH]; intros vd Hnd Hnew; [done|].
  rewrite fmap_cons in Hnd, Hnew. apply NoDup_cons in Hnd as [Hc Hnd].
  cbn [replay length seq]. fold (call_session c). rewrite !fmap_cons.
  unfold record_visit at 1 2.
  rewrite bool_decide_eq_false_2 by (apply Hnew; by left).
  cbn [total_count record_new_session]. f_equal.
  rewrite IH; [|done|].
  - cbn [total_count record_new_session].
    rewrite <- (fmap_S_seq 1), <- list_fmap_compose.
    apply list_fmap_ext. intros i k _. cbn. lia.
  - intros sid Hsid. cbn [sessions record_new_session].
    rewrite elem_of_app, list_elem_of_singleton.
    intros [Hin | ->]; [|done].
    apply (Hnew sid); [by right | done].
Qed.

Lemma call_session_counted c cs vd :
  call_session c ∈ sessions (final_data (c :: cs) vd).
Proof.
  destruct (final_data_first_visits (c :: cs) vd) as (-> & _ & _).
  cbn [first_visits]. case_bool_decide as Hin.
  - apply elem_of_app. by left.
  - apply elem_of_app. right. rewrite fmap_cons. by left.
Qed.

(** X5: after any series of page loads the store holds every session
    identifier it held or was shown, and [total_count] has grown by the
    number of distinct identifiers shown that the store did not hold. *)
Theorem visits_count_distinct_sessions cs w vd :
  loads_as w vd →
  let ids := call_session <$> cs in
  loads_as (fst (visits cs w)) (final_data cs vd) ∧
  list_to_set (sessions (final_data cs vd)) =@{gset string}
    list_to_set (sessions vd) ∪ list_to_set ids ∧
  total_count (final_data cs vd) =
    total_count vd +
    Z.of_nat (size (list_to_set ids ∖ list_to_set (sessions vd) : gset string)).
Proof.
  intros Hload ids.
  destruct (final_data_first_visits cs vd) as (Hs & Ht & _).
  split_and!.
  - by apply visits_replay.
  - rewrite Hs. apply list_to_set_first_visits.
  - rewrite Ht. by rewrite length_first_visits.
Qed.

(** X6: the entry of a date in [daily_counts] grows by the number of
    page loads on that date that brought a session identifier for the
    first time. *)
Theorem visits_daily_histogram cs w vd date :
  loads_as w vd →
  loads_as (fst (visits cs w)) (final_data cs vd) ∧
  count_on (daily_counts (final_data cs vd)) date =
    count_on (daily_counts vd) date +
    Z.of_nat (length (filter (λ c, call_today c = date)
                        (first_visits (sessions vd) cs))).
Proof.
  intros Hload. split; [by apply visits_replay|].
  by destruct (final_data_first_visits cs vd) as (_ & _ & ->).
Qed.

(** X7: page loads that each bring a session identifier of their own, none
    of them in the store, return the counts [total_count + 1],
    [total_count + 2], ... in turn. *)
Theorem visits_new_sessions_count_up cs w vd :
  loads_as w vd →
  NoDup (call_session <$> cs) →
  (∀ sid, sid ∈ call_session <$> cs → sid ∉ sessions vd) →
  snd (visits cs w) =
    inr ((λ k, JInt (total_count vd + Z.of_nat k)) <$> seq 1 (length cs)).
Proof.
  intros Hload Hnd Hnew.
  destruct (visits_replay cs w vd Hload) as (-> & _). f_equal.
  rewrite (list_fmap_compose total_count JInt).
  rewrite replay_new_sessions by done.
  by rewrite <- list_fmap_compose.
Qed.

(** X8: a session that has been counted is not counted again, whatever
    page loads of other sessions came in between: the later call leaves
    the file alone, writes nothing and returns the count in the store. *)
Theorem visit_again_after_others c cs c' w vd :
  loads_as w vd →
  call_session c' = call_session c →
  let w1 := fst (visits (c :: cs) w) in
  file (fst (visit c' w1)) = file w1 ∧
  writes (fst (visit c' w1)) = writes w1 ∧
  snd (visit c' w1) = inr (JInt (total_count (final_data (c :: cs) vd))).
Proof.
  intros Hload Hsame w1.
  destruct (visits_replay (c :: cs) w vd Hload) as (_ & Hload1). fold w1 in Hload1.
  pose proof (call_session_counted c cs vd) as Hin. rewrite <- Hsame in Hin.
  destruct (visit_run c' w1 _ Hload1) as (w2 & -> & _ & Hkeep).
  cbn [fst snd]. destruct (Hkeep Hin) as [-> ->].
  unfold record_visit. by rewrite bool_decide_eq_true_2.
Qed.

(** ** Further properties of the prompt resolver and of the pipeline *)

(** X9: the prompt tells the style: two of the four styles never share a
    prompt, and the fallback is returned for exactly the strings that are
    not one of the four. *)
Theorem get_prompt_identifies_style :
  (∀ s s', s ∈ known_styles → s' ∈ known_styles →
     get_prompt_for_transformation s = get_prompt_for_transformation s' →
     s = s') ∧
  (∀ s, get_prompt_for_transformation s = fallback_prompt ↔ s ∉ known_styles).
Proof.
  split.
  - intros s s' Hs Hs'. unfold known_styles in *.
    repeat (apply elem_of_cons in Hs as [->|Hs]);
      try (by apply elem_of_nil in Hs);
      repeat (apply elem_of_cons in Hs' as [->|Hs']);
      try (by apply elem_of_nil in Hs');
      first [reflexivity | intros Heq; discriminate Heq].
  - intros s. split; [|apply get_prompt_unknown].
    intros Heq Hs. unfold known_styles in Hs.
    repeat (apply elem_of_cons in Hs as [->|Hs]);
      try (by apply elem_of_nil in Hs); discriminate Heq.
Qed.

Lemma string_length_app s t :
  String.length (s +:+ t) = (String.length s + String.length t)%nat.
Proof.
  induction s as [|a s IH]; [done|].
  change (String a s +:+ t) with (String a (s +:+ t)).
  cbn [String.length]. by rewrite IH.
Qed.

Lemma string_app_inj_r t s1 s2 : s1 +:+ t = s2 +:+ t → s1 = s2.
Proof.
  revert s2. induction s1 as [|a s1 IH]; intros [|b s2] Heq.
  - done.
  - apply (f_equal String.length) in Heq.
    rewrite !string_length_app in Heq. cbn in Heq. lia.
  - apply (f_equal String.length) in Heq.
    rewrite !string_length_app in Heq. cbn in Heq. lia.
  - change (String a (s1 +:+ t) = String b (s2 +:+ t)) in Heq.
    injection Heq as -> Heq. f_equal. by apply IH.
Qed.

Lemma entry_name_inj style i j : entry_name style i = entry_name style j → i = j.
Proof.
  unfold entry_name. intros Heq.
  apply (inj (String.app _)) in Heq. apply (inj (String.app _)) in Heq.
  apply string_app_inj_r in Heq. apply (inj pretty) in Heq. lia.
Qed.

Lemma packed_entries_names style rs :
  ∀ i name, name ∈ (fst <$> packed_entries style i rs) →
            ∃ j, (i ≤ j)%nat ∧ name = entry_name style j.
Proof.
  induction rs as [|r rs IH]; intros i name Hin.
  - by apply elem_of_nil in Hin.
  - rewrite packed_entries_cons, fmap_app, elem_of_app in Hin.
    destruct Hin as [Hin|Hin].
    + destruct (status_code r =? 200); [|by apply elem_of_nil in Hin].
      apply list_elem_of_singleton in Hin as ->. exists i. split; [lia|done].
    + apply IH in Hin as (j & Hj & ->). exists j. split; [lia|done].
Qed.

Lemma packed_entries_NoDup style rs :
  ∀ i, NoDup (fst <$> packed_entries style i rs).
Proof.
  induction rs as [|r rs IH]; intros i; [constructor|].
  rewrite packed_entries_cons, fmap_app.
  destruct (status_code r =? 200); [|apply IH].
  cbn. constructor; [|apply IH].
  intros (j & Hj & Heq)%packed_entries_names.
  apply entry_name_inj in Heq. lia.
Qed.

Lemma packed_entries_length style rs :
  ∀ i, length (packed_entries style i rs) =
       length (filter (λ r, status_code r = 200) rs).
Proof.
  induction rs as [|r rs IH]; intros i; [done|].
  rewrite packed_entries_cons, length_app, IH, filter_cons.
  destruct (Z.eqb_spec (status_code r) 200) as [Heq|Hne].
  - by rewrite decide_True.
  - by rewrite decide_False.
Qed.

Lemma packed_entries_all_ok style rs :
  Forall (λ r, status_code r = 200) rs →
  ∀ i, packed_entries style i rs =
       imap (λ j r, (entry_name style (i + j), content r)) rs.
Proof.
  induction 1 as [|r rs Hr _ IH]; intros i; [done|].
  rewrite packed_entries_cons, IH, imap_cons, Hr, Nat.add_0_r. cbn. f_equal.
  apply imap_ext. intros j r' _. cbn. do 2 f_equal. lia.
Qed.

Lemma package_events_fetches urls :
  ∀ rs i, length urls = length rs →
    List.filter is_service_call (package_events i urls rs) =
    requests_get_call <$> urls.
Proof.
  induction urls as [|u urls IH]; intros [|r rs] i Hlen; try done.
  cbn [package_events]. rewrite List.filter_app, IH by (cbn in Hlen; lia).
  unfold fetch_events. by destruct (status_code r =? 200).
Qed.

Section MorePipelineProperties.
Variable env : services.

(** X10: [generate_rainbow_rating] returns the next random draw, renders
    nothing, and finds a description exactly for the ratings 1 to 10: the
    four ranges leave no gap. *)
Theorem generate_rainbow_rating_description p :
  ∃ description,
    generate_rainbow_rating env p =
      ({| log := log p;
          transformed_images := transformed_images p;
          all_images := all_images p;
          draws := S (draws p) |},
       inr (random_randint env (draws p), description, rainbow_colors)) ∧
    (description ≠ "" ↔ 1 ≤ random_randint env (draws p) ≤ 10).
Proof.
  unfold generate_rainbow_rating.
  unfold bind at 1, get. rewrite bind_modify. unfold ret.
  eexists. split; [reflexivity|].
  set (rating := random_randint env (draws p)). cbn zeta.
  destruct (Z.leb_spec 1 rating), (Z.leb_spec rating 3),
    (Z.leb_spec 4 rating), (Z.leb_spec rating 6),
    (Z.leb_spec 7 rating), (Z.leb_spec rating 9),
    (Z.leb_spec 10 rating), (Z.leb_spec rating 10);
    cbn [andb]; split; (done || lia).
Qed.

Lemma display_images_events style urls :
  ∀ i acc p,
    display_images env style i urls acc p =
      ({| log := log p ++ display_events env style i (draws p) urls;
          transformed_images := transformed_images p;
          all_images := all_images p;
          draws := (draws p + length urls)%nat |},
       inr (acc ++ urls)).
Proof.
  induction urls as [|u urls IH]; intros i acc p.
  - destruct p. cbn. by rewrite !app_nil_r, Nat.add_0_r.
  - cbn [display_images]. rewrite bind_emit.
    unfold bind at 1, generate_rainbow_rating.
    unfold bind at 1, get. rewrite bind_modify. unfold ret at 1.
    rewrite !bind_emit, IH.
    cbn [log transformed_images all_images draws rendered].
    f_equal; [|by rewrite <- app_assoc].
    f_equal; [|cbn [length]; lia].
    cbn [display_events]. rewrite <- !app_assoc. reflexivity.
Qed.

Lemma display_events_facts style urls :
  ∀ i k,
    length (display_events env style i k urls) = (5 * length urls)%nat ∧
    Forall (λ e, is_service_call e = false ∧ is_download e = false)
      (display_events env style i k urls) ∧
    ∀ j u, urls !! j = Some u →
      st_image (Url u)
        (style +:+ " Transformation " +:+ pretty (i + j + 1)%nat +:+ " ✨")
      ∈ display_events env style i k urls.
Proof.
  induction urls as [|u urls IH]; intros i k.
  - cbn. split_and!; [done | constructor | intros j u' Hj; by destruct j].
  - destruct (IH (S i) (S k)) as (Hlen & Hall & Himg).
    cbn [display_events]. split_and!.
    + rewrite length_app, Hlen. cbn [length image_events]. lia.
    + apply Forall_app. split; [by repeat constructor | done].
    + intros [|j] u' Hj; cbn in Hj.
      * injection Hj as ->. apply elem_of_app. left.
        rewrite Nat.add_0_r. apply list_elem_of_here.
      * apply elem_of_app. right.
        replace (i + S j + 1)%nat with (S i + j + 1)%nat by lia.
        by apply Himg.
Qed.

(** X11: [display_images] shows the URLs in order, five elements each with
    the caption numbered from 1, takes one random draw per image, calls no
    service, leaves the session state alone and returns the URLs it was
    given after those collected before. *)
Theorem display_images_shows_each_url style urls i acc p :
  display_images env style i urls acc p =
    ({| log := log p ++ display_events env style i (draws p) urls;
        transformed_images := transformed_images p;
        all_images := all_images p;
        draws := (draws p + length urls)%nat |},
     inr (acc ++ urls)) ∧
  length (display_events env style i (draws p) urls) = (5 * length urls)%nat ∧
  Forall (λ e, is_service_call e = false ∧ is_download e = false)
    (display_events env style i (draws p) urls) ∧
  ∀ j u, urls !! j = Some u →
    st_image (Url u)
      (style +:+ " Transformation " +:+ pretty (i + j + 1)%nat +:+ " ✨")
    ∈ display_events env style i (draws p) urls.
Proof.
  split; [apply display_images_events | apply display_events_facts].
Qed.

(** [main_page] on a submission with an image and a key. *)
Lemma main_page_submission api_key style num_images image_size data p :
  api_key ≠ "" →
  main_page env true api_key style num_images image_size (Some data) p =
    bind (try_except
            (submission env api_key style num_images image_size (Some data))
            (λ e, emit (st_error ("Error during transformation: " +:+ str e))))
         (λ _, gallery)
         (rendered p (opening_events style data)).
Proof.
  intros Hkey. unfold main_page. rewrite bind_emit.
  assert (truthy api_key = true) as -> by by destruct api_key.
  cbn [andb is_not_None].
  repeat (rewrite bind_assoc || rewrite bind_emit).
  by rewrite !rendered_app.
Qed.

(** The body of the [try] up to the archive loop, when the service
    returned items. *)
Lemma submission_shows_results api_key style num_images image_size data
    item items p :
  images_edit env api_key (request_for data style num_images image_size)
    = inr (item :: items) →
  let urls := url <$> item :: items in
  submission env api_key style num_images image_size (Some data) p =
    bind (package env urls style)
      (λ zip_io,
         emit (st_download_button
                 ("🔮 Download All " +:+ style +:+ " Transformations")
                 zip_io
                 ("aura_farm_" +:+ lower style +:+ "_transformations.zip")
                 "application/zip") ;;;
         emit (st_status_update
                 ("✅ " +:+ style +:+ " transformation complete!") "complete"))
      (shown_results p urls
         ([images_edit_call api_key
             (request_for data style num_images image_size);
           st_toast ("Your " +:+ style +:+ " transformation is ready!")]
          ++ display_events env style 0 (draws p) urls)).
Proof.
  intros Hedit urls. unfold submission.
  rewrite bind_lift. cbn [getvalue].
  unfold bind at 1. rewrite transform_image_with_openai_run, Hedit.
  fold urls. subst urls. rewrite fmap_cons.
  repeat (rewrite bind_assoc || rewrite bind_emit).
  unfold set_transformed_images. rewrite bind_modify, bind_assoc.
  rewrite (bind_run _ _ _ _ _ (display_images_events style _ 0%nat [] _)).
  rewrite app_nil_l. unfold set_all_images.
  rewrite bind_assoc, bind_modify, !bind_assoc.
  cbn [log transformed_images all_images draws rendered].
  unfold shown_results. rewrite <- !app_assoc. reflexivity.
Qed.

Lemma shown_results_rendered p urls evs evs' :
  shown_results (rendered p evs) urls evs' = shown_results p urls (evs ++ evs').
Proof. unfold shown_results, rendered. cbn. by rewrite app_assoc. Qed.

Lemma rendered_shown_results p urls evs evs' :
  rendered (shown_results p urls evs) evs' = shown_results p urls (evs ++ evs').
Proof. unfold shown_results, rendered. cbn. by rewrite app_assoc. Qed.

Lemma package_loop_raises style urls1 :
  ∀ rs i zipf p u urls2 e,
    Forall2 (λ u r, requests_get env u = inr r) urls1 rs →
    requests_get env u = inl e →
    package_loop env style i (urls1 ++ u :: urls2) zipf p =
      (rendered p (package_events i urls1 rs ++ [requests_get_call u]), inl e).
Proof.
  induction urls1 as [|u1 urls1 IH]; intros rs i zipf p u urls2 e Hget Hu.
  - apply Forall2_nil_inv_l in Hget as ->.
    cbn [app package_loop package_events]. by rewrite bind_emit, bind_lift, Hu.
  - apply Forall2_cons_inv_l in Hget as (r & rs' & Hr & Hrs & ->).
    cbn [app package_loop package_events]. rewrite bind_emit, bind_lift, Hr.
    unfold fetch_events. destruct (status_code r =? 200).
    + rewrite bind_ret, (IH rs' _ _ _ u urls2 e) by done.
      by rewrite rendered_app, <- app_assoc.
    + rewrite bind_assoc, bind_emit, bind_ret, (IH rs' _ _ _ u urls2 e) by done.
      by rewrite !rendered_app, <- !app_assoc.
Qed.

(** X12: when the fetch of a URL raises, after the fetches before it
    returned responses, [package] raises that exception: the URLs after it
    are not fetched and no archive is returned. *)
Theorem package_fetch_raises style urls1 rs u urls2 e p :
  Forall2 (λ u r, requests_get env u = inr r) urls1 rs →
  requests_get env u = inl e →
  package env (urls1 ++ u :: urls2) style p =
    (rendered p (package_events 0 urls1 rs ++ [requests_get_call u]), inl e).
Proof. intros Hget Hu. unfold package. by apply package_loop_raises. Qed.

(** X13: a submission whose results were shown but where the fetch of one
    of them raises: [main_page] shows ["Error during transformation: ..."]
    with the message, offers no download, leaves the status as it was, and
    still returns normally with the result URLs stored in the session
    state. *)
Theorem main_page_fetch_raises api_key style num_images image_size data
    item items urls1 rs u urls2 e p :
  api_key ≠ "" →
  images_edit env api_key (request_for data style num_images image_size)
    = inr (item :: items) →
  url <$> item :: items = urls1 ++ u :: urls2 →
  Forall2 (λ u r, requests_get env u = inr r) urls1 rs →
  requests_get env u = inl e →
  main_page env true api_key style num_images image_size (Some data) p =
    (shown_results p (url <$> item :: items)
       (opening_events style data ++
        [images_edit_call api_key
           (request_for data style num_images image_size);
         st_toast ("Your " +:+ style +:+ " transformation is ready!")] ++
        display_events env style 0 (draws p) (url <$> item :: items) ++
        package_events 0 urls1 rs ++
        [requests_get_call u;
         st_error ("Error during transformation: " +:+ str e)] ++
        gallery_events),
     inr tt).
Proof.
  intros Hkey Hedit Hurls Hget Hu.
  rewrite main_page_submission by done.
  unfold bind at 1, try_except.
  rewrite (submission_shows_results _ _ _ _ _ item items) by done.
  cbn zeta. unfold bind at 1, package. rewrite Hurls at 1.
  rewrite (package_loop_raises style urls1 rs _ _ _ u urls2 e) by done.
  rewrite emit_run, gallery_run.
  rewrite !rendered_shown_results, shown_results_rendered.
  cbn [draws rendered]. by rewrite <- !app_assoc.
Qed.

(** X14: a submission whose fetches all return a response, whatever the
    statuses: [main_page] shows the results, fetches them, offers the
    archive [package] built under the name
    [aura_farm_{style.lower()}_transformations.zip], marks the status
    complete and stores the result URLs in the session state. *)
Theorem main_page_offers_archive api_key style num_images image_size data
    item items rs p :
  api_key ≠ "" →
  images_edit env api_key (request_for data style num_images image_size)
    = inr (item :: items) →
  Forall2 (λ u r, requests_get env u = inr r) (url <$> item :: items) rs →
  main_page env true api_key style num_images image_size (Some data) p =
    (shown_results p (url <$> item :: items)
       (opening_events style data ++
        [images_edit_call api_key
           (request_for data style num_images image_size);
         st_toast ("Your " +:+ style +:+ " transformation is ready!")] ++
        display_events env style 0 (draws p) (url <$> item :: items) ++
        package_events 0 (url <$> item :: items) rs ++
        [st_download_button
           ("🔮 Download All " +:+ style +:+ " Transformations")
           (packed_entries style 0 rs)
           ("aura_farm_" +:+ lower style +:+ "_transformations.zip")
           "application/zip";
         st_status_update ("✅ " +:+ style +:+ " transformation complete!")
           "complete"] ++
        gallery_events),
     inr tt).
Proof.
  intros Hkey Hedit Hget.
  rewrite main_page_submission by done.
  unfold bind at 1, try_except.
  rewrite (submission_shows_results _ _ _ _ _ item items) by done.
  cbn zeta. unfold package.
  rewrite (bind_run _ _ _ _ _ (package_loop_run env style _ rs 0%nat [] _ Hget)).
  rewrite bind_emit, emit_run, gallery_run.
  rewrite !rendered_shown_results, shown_results_rendered.
  cbn [draws rendered app]. by rewrite <- !app_assoc.
Qed.

(** X15: a submission for which the service gave no URL, because the
    image-edit call raised or because the response was empty: [main_page]
    fetches nothing, offers no download, leaves the session state alone,
    and still marks the status complete. *)
Theorem main_page_no_results api_key style num_images image_size data p :
  api_key ≠ "" →
  (∀ e,
     images_edit env api_key (request_for data style num_images image_size)
       = inl e →
     main_page env true api_key style num_images image_size (Some data) p =
       (rendered p
          (opening_events style data ++
           [images_edit_call api_key
              (request_for data style num_images image_size);
            st_error ("Error transforming image: " +:+ str e);
            st_status_update ("✅ " +:+ style +:+ " transformation complete!")
              "complete"] ++
           gallery_events),
        inr tt)) ∧
  (images_edit env api_key (request_for data style num_images image_size)
     = inr [] →
   main_page env true api_key style num_images image_size (Some data) p =
     (rendered p
        (opening_events style data ++
         [images_edit_call api_key
            (request_for data style num_images image_size);
          st_status_update ("✅ " +:+ style +:+ " transformation complete!")
            "complete"] ++
         gallery_events),
      inr tt)).
Proof.
  intros Hkey. split.
  - intros e Hedit. rewrite main_page_submission by done.
    unfold bind at 1, try_except, submission.
    rewrite bind_lift. cbn [getvalue].
    unfold bind at 1. rewrite transform_image_with_openai_run, Hedit.
    rewrite bind_ret, emit_run, gallery_run, !rendered_app.
    by rewrite <- ?app_assoc.
  - intros Hedit. rewrite main_page_submission by done.
    unfold bind at 1, try_except, submission.
    rewrite bind_lift. cbn [getvalue].
    unfold bind at 1. rewrite transform_image_with_openai_run, Hedit.
    rewrite fmap_nil, bind_ret, emit_run, gallery_run, !rendered_app.
    by rewrite <- ?app_assoc.
Qed.

Lemma main_page_idle api_key style num_images image_size uploaded_file p :
  main_page env false api_key style num_images image_size uploaded_file p =
    (rendered p
       (match uploaded_file with
        | Some data => [st_image (Uploaded data) "Your Uploaded Image"]
        | None => []
        end ++ gallery_events),
     inr tt).
Proof.
  unfold main_page. destruct uploaded_file as [data|].
  - rewrite bind_emit. cbn [andb]. by rewrite bind_ret, gallery_run, rendered_app.
  - rewrite bind_ret. cbn [andb]. by rewrite bind_ret, gallery_run.
Qed.

(** X16: without a submission [main_page] shows the uploaded image, if
    any, and the gallery, and nothing else, whatever the other inputs: no
    warning, no service call, no change of the session state. *)
Theorem main_page_not_submitted api_key style num_images image_size
    uploaded_file p :
  main_page env false api_key style num_images image_size uploaded_file p =
    (rendered p
       (match uploaded_file with
        | Some data => [st_image (Uploaded data) "Your Uploaded Image"]
        | None => []
        end ++ gallery_events),
     inr tt).
Proof. apply main_page_idle. Qed.


Lemma adds_ret {A} P (a : A) : adds P (ret a).
Proof. intros p. exists []. cbn. by rewrite app_nil_r. Qed.

Lemma adds_emit P e : P e → adds P (emit e).
Proof. intros He p. exists [e]. split; [done|]. by constructor. Qed.

Lemma adds_modify P (f : page → page) :
  (∀ p, log (f p) = log p) → adds P (modify f).
Proof. intros Hf p. exists []. cbn. by rewrite Hf, app_nil_r. Qed.

Lemma adds_bind {A B} P (c : M exception page A) (k : A → M exception page B) :
  adds P c → (∀ a p p', c p = (p', inr a) → adds P (k a)) → adds P (bind c k).
Proof.
  intros Hc Hk p. unfold bind. destruct (Hc p) as (evs & Hevs & HP).
  destruct (c p) as [p1 [e|a]] eqn:Hrun; cbn [fst] in *; [by exists evs|].
  destruct (Hk a p p1 Hrun p1) as (evs' & Hevs' & HP'). exists (evs ++ evs').
  split; [by rewrite Hevs', Hevs, app_assoc | by apply Forall_app].
Qed.

Lemma adds_package_loop P style urls :
  (∀ u, u ∈ urls → P (requests_get_call u)) →
  (∀ text, P (st_error text)) →
  ∀ i zipf, adds P (package_loop env style i urls zipf).
Proof.
  intros Hfetch Herr.
  induction urls as [|u urls IH]; intros i zipf; [apply adds_ret|].
  cbn [package_loop].
  apply adds_bind; [apply adds_emit, Hfetch; by left|intros _ _ _ _].
  apply adds_bind; [intros p; exists []; cbn; by rewrite app_nil_r|].
  intros r _ _ _.
  apply adds_bind; [|intros zipf' _ _ _; apply IH; intros; apply Hfetch; by right].
  destruct (status_code r =? 200); [apply adds_ret|].
  apply adds_bind; [apply adds_emit, Herr|intros; apply adds_ret].
Qed.

Lemma adds_submission api_key style num_images image_size uploaded_file :
  adds (allowed_call env api_key style num_images image_size uploaded_file)
    (submission env api_key style num_images image_size uploaded_file).
Proof.
  unfold submission. destruct uploaded_file as [data|].
  2:{ intros p. exists []. cbn. by rewrite app_nil_r. }
  cbn [getvalue].
  apply adds_bind; [intros p; exists []; cbn; by rewrite app_nil_r|].
  intros image_bytes p0 p0' [= _ <-].
  apply adds_bind.
  { intros p. rewrite transform_image_with_openai_run.
    destruct (images_edit env api_key _); eexists; (split; [reflexivity|]);
      repeat constructor; cbn; eauto. }
  intros urls p1 p1' Hrun.
  apply adds_bind; [|intros; by apply adds_emit].
  destruct urls as [|u urls]; [apply adds_ret|].
  rewrite transform_image_with_openai_run in Hrun.
  destruct (images_edit env api_key _) as [e|items] eqn:Hedit;
    [by injection Hrun|].
  injection Hrun as _ Hurls.
  apply adds_bind; [by apply adds_emit|intros _ _ _ _].
  apply adds_bind; [by apply adds_modify|intros _ _ _ _].
  apply adds_bind.
  { intros p. rewrite display_images_events. eexists. split; [reflexivity|].
    destruct (display_events_facts style (u :: urls) 0%nat (draws p))
      as (_ & Hall & _).
    eapply Forall_impl; [exact Hall|]. intros e [He _]. by destruct e. }
  intros all p2 p2' Hall. rewrite display_images_events in Hall.
  injection Hall as _ <-.
  apply adds_bind; [by apply adds_modify|intros _ _ _ _].
  apply adds_bind; [|intros; by apply adds_emit].
  unfold package. apply adds_package_loop; [|done].
  intros u' Hu'. cbn. exists data, items. by rewrite Hurls.
Qed.

Lemma main_page_outcome submitted api_key style num_images image_size
    uploaded_file p :
  let run :=
    main_page env submitted api_key style num_images image_size uploaded_file p in
  snd run = inr tt ∧
  ∃ evs,
    log (fst run) = log p ++ evs ++ gallery_events ∧
    Forall (allowed_call env api_key style num_images image_size uploaded_file)
      evs.
Proof.
  cbn zeta.
  destruct submitted.
  2:{ rewrite main_page_idle. cbn. split; [done|].
      eexists. split; [reflexivity|]. by destruct uploaded_file; repeat constructor. }
  destruct (decide (uploaded_file = None ∨ api_key = "")) as [Hmissing|Hok].
  - assert (Hrun : ∃ evs,
      main_page env true api_key style num_images image_size uploaded_file p =
        (rendered p (evs ++ gallery_events), inr tt) ∧
      Forall (allowed_call env api_key style num_images image_size uploaded_file)
        evs).
    { unfold main_page. destruct uploaded_file as [data|].
      - destruct Hmissing as [?| ->]; [done|].
        rewrite bind_emit. cbn [andb is_not_None truthy truthy_upload negb].
        rewrite bind_emit, gallery_run, !rendered_app.
        eexists [_; _]. split; [done|]. by repeat constructor.
      - rewrite bind_ret. cbn [andb is_not_None truthy_upload negb].
        rewrite bind_emit, gallery_run, !rendered_app.
        eexists [_]. split; [done|]. by repeat constructor. }
    destruct Hrun as (evs & -> & Hall). cbn. eauto.
  - destruct uploaded_file as [data|]; [|by destruct Hok; left].
    assert (Hkey : api_key ≠ "") by (intros ->; apply Hok; by right).
    rewrite main_page_submission by done.
    set (p0 := rendered p (opening_events style data)).
    destruct (adds_submission api_key style num_images image_size (Some data) p0)
      as (evs & Hevs & Hall).
    unfold bind, try_except.
    destruct (submission env api_key style num_images image_size (Some data) p0)
      as [p1 [e|[]]]; cbn [fst] in Hevs.
    + rewrite emit_run, gallery_run, rendered_app. cbn [fst snd log rendered].
      split; [done|]. rewrite Hevs. subst p0. cbn [log rendered].
      eexists (opening_events style data ++ evs ++ [_]).
      split; [by rewrite <- !app_assoc|].
      apply Forall_app. split; [by repeat constructor|].
      apply Forall_app. split; [done | by repeat constructor].
    + rewrite gallery_run. cbn [fst snd log rendered].
      split; [done|]. rewrite Hevs. subst p0. cbn [log rendered].
      exists (opening_events style data ++ evs).
      split; [by rewrite <- !app_assoc|].
      apply Forall_app. split; [by repeat constructor | done].
Qed.


(** X22: the only service calls [main_page] makes, whatever its inputs and
    whatever the services do, are the image-edit call for the key, image,
    style, count and size it was given, and fetches of URLs that this call
    returned. *)
Theorem main_page_service_calls submitted api_key style num_images
    image_size uploaded_file p :
  ∃ evs,
    log (fst (main_page env submitted api_key style num_images image_size
                uploaded_file p)) = log p ++ evs ∧
    Forall (allowed_call env api_key style num_images image_size uploaded_file)
      evs.
Proof.
  destruct (main_page_outcome submitted api_key style num_images image_size
              uploaded_file p) as (_ & evs & Hlog & Hall).
  exists (evs ++ gallery_events). split; [done|].
  apply Forall_app. split; [done|]. by repeat constructor.
Qed.

(** X19: the entries of the archive [package] returns have pairwise
    distinct names. *)
Theorem package_entry_names_distinct style urls rs p :
  Forall2 (λ u r, requests_get env u = inr r) urls rs →
  ∃ zip_io, snd (package env urls style p) = inr zip_io ∧ NoDup (fst <$> zip_io).
Proof.
  intros Hget. unfold package. rewrite (package_loop_run env style urls rs) by done.
  eexists. split; [reflexivity|]. apply packed_entries_NoDup.
Qed.

(** X20: the archive has one entry per response with status 200, so never
    more entries than URLs; when every status is 200 it has one entry per
    URL, in the order of the URLs, named with the indices 1, 2, ... and
    holding the content fetched. *)
Theorem package_entry_count style urls rs p :
  Forall2 (λ u r, requests_get env u = inr r) urls rs →
  ∃ zip_io,
    snd (package env urls style p) = inr zip_io ∧
    length zip_io = length (filter (λ r, status_code r = 200) rs) ∧
    (length zip_io ≤ length urls)%nat ∧
    (Forall (λ r, status_code r = 200) rs →
     zip_io = imap (λ j r, (entry_name style j, content r)) rs).
Proof.
  intros Hget. unfold package. rewrite (package_loop_run env style urls rs) by done.
  eexists. split; [reflexivity|]. cbn [app]. split_and!.
  - apply packed_entries_length.
  - rewrite packed_entries_length, (Forall2_length _ _ _ Hget).
    apply length_filter.
  - intros Hall. by rewrite packed_entries_all_ok.
Qed.

(** X21: when every fetch returns a response, [package] fetches each URL
    exactly once, in the order given, and calls no other service. *)
Theorem package_fetches_each_url_once style urls rs p :
  Forall2 (λ u r, requests_get env u = inr r) urls rs →
  ∃ evs,
    fst (package env urls style p) = rendered p evs ∧
    List.filter is_service_call evs = requests_get_call <$> urls.
Proof.
  intros Hget. unfold package. rewrite (package_loop_run env style urls rs) by done.
  eexists. split; [reflexivity|].
  apply package_events_fetches. by eapply Forall2_length.
Qed.

End MorePipelineProperties.

(** ** Properties of the sidebar and of the entry point *)

Lemma configure_sidebar_run uuid today widgets a :
  configure_sidebar uuid today widgets a =
  match track_visitor uuid today (visitor_store a) with
  | (w, inl e) =>
      ({| visitor_store := w; sidebar := sidebar a; main_area := main_area a |},
       inl (TrackerError e))
  | (w, inr visitor_count) =>
      ({| visitor_store := w;
          sidebar := sidebar a ++ sidebar_events visitor_count;
          main_area := main_area a |},
       inr (form_submitted widgets, form_api_key widgets, form_style widgets,
            form_num_images widgets, form_image_size widgets,
            form_uploaded_file widgets))
  end.
Proof.
  unfold configure_sidebar. unfold bind at 1, on_store.
  destruct (track_visitor uuid today (visitor_store a)) as [w [e|n]]; [done|].
  unfold show. rewrite !bind_modify. unfold ret.
  cbn [visitor_store sidebar main_area]. unfold sidebar_events.
  by rewrite <- !app_assoc.
Qed.

Section EntryPoint.
Variable env : services.

(** X23: [main] has no handler around the tracker: when [track_visitor]
    raises, [main] raises the same exception, and neither the sidebar nor
    the page is rendered and no service is called. *)
Theorem main_tracker_failure uuid today widgets a e :
  snd (track_visitor uuid today (visitor_store a)) = inl e →
  main env uuid today widgets a =
    ({| visitor_store := fst (track_visitor uuid today (visitor_store a));
        sidebar := sidebar a;
        main_area := main_area a |},
     inl (TrackerError e)).
Proof.
  intros Hraise. unfold main. unfold bind. rewrite configure_sidebar_run.
  destruct (track_visitor uuid today (visitor_store a)) as [w [e'|n]];
    cbn in Hraise; [|done]. by injection Hraise as ->.
Qed.


End EntryPoint.
(** ** The statements at sample inputs *)

Lemma track_visitor_new_session_witness :
  track_visitor "unused" "2025-01-02" (sample_world (Some "b")) =
    (let vd' := {| total_count := 2;
                   daily_counts := <["2025-01-02" := 1]> {["2025-01-01" := 1]};
                   sessions := ["a"; "b"] |} in
     {| file := Some (inr (to_json vd'));
        writes := [to_json vd'];
        session_id := Some "b" |},
     inr (JInt 2)).
Proof.
  apply (track_visitor_new_session "unused" "2025-01-02"
           (sample_world (Some "b")) sample_data).
  - reflexivity.
  - cbn. intros Hin. apply list_elem_of_singleton in Hin. discriminate.
Defined.

Lemma visitor_invariant_preserved_witness :
  snd (visits sample_calls fresh_world) = inr [JInt 1; JInt 1; JInt 2] ∧
  Forall visitor_invariant (replay sample_calls empty_data) ∧
  loads_as (fst (visits sample_calls fresh_world))
    {| total_count := 2;
       daily_counts := <["2025-01-02" := 1]> {["2025-01-01" := 1]};
       sessions := ["b"; "d"] |}.
Proof.
  apply (proj1 visitor_invariant_preserved sample_calls fresh_world empty_data).
  - reflexivity.
  - split; reflexivity.
Defined.

Lemma track_visitor_repeat_session_witness :
  track_visitor "unused" "2025-01-05" (sample_world (Some "a")) =
    (sample_world (Some "a"), inr (JInt 1)) ∧
  (let first := track_visitor "b" "2025-01-01" fresh_world in
   track_visitor "c" "2025-01-02" (fst first) = (fst first, snd first)).
Proof.
  split.
  - apply (proj1 track_visitor_repeat_session "unused" "2025-01-05"
             (sample_world (Some "a")) sample_data).
    + reflexivity.
    + apply list_elem_of_here.
  - apply (proj2 track_visitor_repeat_session "b" "2025-01-01" "c" "2025-01-02"
             fresh_world empty_data).
    reflexivity.
Defined.


Lemma sessions_stay_duplicate_free_witness :
  let w' := fst (track_visitor "unused" "2025-01-02" (sample_world (Some "b"))) in
  let vd' := record_visit "b" "2025-01-02" sample_data in
  loads_as w' vd' ∧
  (writes w' = [] ∨ writes w' = [] ++ [to_json vd']) ∧
  NoDup (sessions vd') ∧
  session_count (sessions vd') = Z.of_nat (length (sessions vd')).
Proof.
  apply (sessions_stay_duplicate_free "unused" "2025-01-02"
           (sample_world (Some "b")) sample_data).
  - reflexivity.
  - apply NoDup_singleton.
Defined.

Lemma get_prompt_for_transformation_total_witness :
  get_prompt_for_transformation "Cubism" =
    "Transform this image in a creative way.".
Proof.
  destruct get_prompt_for_transformation_total as (_ & _ & _ & _ & Hother & _).
  apply Hother. intros Hin.
  repeat (apply elem_of_cons in Hin as [Heq|Hin]; [discriminate Heq|]).
  by apply elem_of_nil in Hin.
Defined.

Lemma transform_image_with_openai_result_witness :
  snd (transform_image_with_openai sample_env "sk-ok" "bytes" "Ghibli" 4
         "1024x1024" blank_page) =
    inr ["https://img.example/0"; "https://img.example/1";
         "https://img.example/2"; "https://img.example/3"] ∧
  transform_image_with_openai sample_env "bad" "bytes" "Ghibli" 4
    "1024x1024" blank_page =
    (rendered blank_page
       [images_edit_call "bad" (request_for "bytes" "Ghibli" 4 "1024x1024");
        st_error "Error transforming image: Incorrect API key provided"],
     inr []).
Proof.
  destruct (transform_image_with_openai_result sample_env)
    as (_ & Hfour & Hraise).
  split.
  - apply (Hfour "sk-ok" "bytes" "Ghibli" "1024x1024" blank_page
             {| url := "https://img.example/0" |}
             {| url := "https://img.example/1" |}
             {| url := "https://img.example/2" |}
             {| url := "https://img.example/3" |}).
    reflexivity.
  - apply (Hraise "bad" "bytes" "Ghibli" 4 "1024x1024" blank_page
             (Exception "Incorrect API key provided")).
    reflexivity.
Defined.

Lemma package_skips_failed_fetches_witness :
  package sample_env
    ["https://img.example/0"; "https://img.example/1"; "https://img.example/2"]
    "Ghibli" blank_page =
    (rendered blank_page
       [requests_get_call "https://img.example/0";
        requests_get_call "https://img.example/1";
        st_error "Failed to fetch image 2. Error code: 404";
        requests_get_call "https://img.example/2"],
     inr [("ghibli_transform_1.png", "PNG https://img.example/0");
          ("ghibli_transform_3.png", "PNG https://img.example/2")]).
Proof.
  destruct (package_skips_failed_fetches sample_env) as (_ & _ & _ & Hthree).
  apply (Hthree "Ghibli" _ _ _
           {| status_code := 200; content := "PNG https://img.example/0" |}
           {| status_code := 404; content := "" |}
           {| status_code := 200; content := "PNG https://img.example/2" |});
    reflexivity.
Defined.

Lemma package_empty_archive_witness :
  snd (package offline_env
         ["https://img.example/0"; "https://img.example/1"] "Ghibli"
         blank_page) = inr [] ∧
  (let run := main_page offline_env true "sk-ok" "Ghibli" 2 "1024x1024"
                (Some "bytes") blank_page in
   snd run = inr tt ∧
   st_download_button "🔮 Download All Ghibli Transformations" []
     "aura_farm_ghibli_transformations.zip" "application/zip" ∈ log (fst run)).
Proof.
  destruct (package_empty_archive offline_env) as (Hpackage & Hpage).
  split.
  - apply (Hpackage "Ghibli" _
             [ {| status_code := 503; content := "" |};
               {| status_code := 503; content := "" |} ] blank_page).
    + repeat constructor.
    + repeat constructor; discriminate.
  - apply (Hpage "sk-ok" "Ghibli" 2 "1024x1024" "bytes" (sample_items 2)
             [ {| status_code := 503; content := "" |};
               {| status_code := 503; content := "" |} ] blank_page).
    + discriminate.
    + reflexivity.
    + discriminate.
    + repeat constructor.
    + repeat constructor; discriminate.
Defined.

Lemma main_page_validation_witness :
  main_page sample_env true "" "Ghibli" 1 "1024x1024" (Some "bytes") blank_page =
    (rendered blank_page
       ([st_image (Uploaded "bytes") "Your Uploaded Image"] ++
        [st_warning "Please provide your OpenAI API key."] ++ gallery_events),
     inr tt) ∧
  main_page sample_env true "sk-ok" "Ghibli" 1 "1024x1024" None blank_page =
    (rendered blank_page
       ([st_warning "Please upload an image to transform."] ++ gallery_events),
     inr tt).
Proof.
  split.
  - apply (main_page_validation sample_env "" "Ghibli" 1 "1024x1024"
             (Some "bytes") blank_page). by right.
  - apply (main_page_validation sample_env "sk-ok" "Ghibli" 1 "1024x1024"
             None blank_page). by left.
Defined.

(** ** The further statements at sample inputs *)

Ltac by_evaluation :=
  match goal with
  | |- ?P => refine (@bool_decide_unpack P _ _); vm_compute; exact I
  end.

Lemma track_visitor_returns_stored_count_witness :
  ∃ d,
    load_visitor_data
      (file (fst (track_visitor "unused" "2025-01-02" (sample_world (Some "b")))))
      = inr (JDict d) ∧
    d !! "total_count" = Some (JInt 2).
Proof.
  apply (track_visitor_returns_stored_count "unused" "2025-01-02"
           (sample_world (Some "b")) (JInt 2)).
  reflexivity.
Defined.

Lemma track_visitor_ill_shaped_witness :
  track_visitor "b" "2025-01-01"
    {| file := Some (inr (JStr "total_count")); writes := []; session_id := None |} =
    ({| file := Some (inr (JStr "total_count")); writes := [];
        session_id := Some "b" |}, inl TypeError) ∧
  track_visitor "b" "2025-01-01"
    {| file := Some (inr (JDict {["total_count" := JInt 3]})); writes := [];
       session_id := None |} =
    ({| file := Some (inr (JDict {["total_count" := JInt 3]})); writes := [];
        session_id := Some "b" |}, inl (KeyError "sessions")) ∧
  track_visitor "b" "2025-01-01"
    {| file := Some (inl (OtherError "PermissionError")); writes := [];
       session_id := None |} =
    ({| file := Some (inl (OtherError "PermissionError")); writes := [];
        session_id := None |}, inl (OtherError "PermissionError")).
Proof.
  destruct track_visitor_ill_shaped as (Hshape & Hkey & Hread).
  split_and!.
  - apply (Hshape "b" "2025-01-01"
             {| file := Some (inr (JStr "total_count")); writes := [];
                session_id := None |} (JStr "total_count")).
    + reflexivity.
    + intros d. discriminate.
  - apply (Hkey "b" "2025-01-01"
             {| file := Some (inr (JDict {["total_count" := JInt 3]}));
                writes := []; session_id := None |}
             {["total_count" := JInt 3]}).
    + reflexivity.
    + reflexivity.
  - apply (Hread "b" "2025-01-01"
             {| file := Some (inl (OtherError "PermissionError")); writes := [];
                session_id := None |} (OtherError "PermissionError")).
    + reflexivity.
    + discriminate.
Defined.

Lemma track_visitor_keeps_other_fields_witness :
  ∃ d',
    file (fst (track_visitor "unused" "2025-01-02" versioned_world))
      = Some (inr (JDict d')) ∧
    d' !! "sessions" = Some (JList (JStr <$> ["a"] ++ ["b"])) ∧
    d' !! "total_count" = Some (JInt (1 + 1)) ∧
    d' !! "daily_counts" =
      Some (JDict (JInt <$> count_today "2025-01-02" {["2025-01-01" := 1]})) ∧
    (∀ key, key ∉ ["sessions"; "total_count"; "daily_counts"] →
            d' !! key = versioned_document !! key).
Proof.
  apply (track_visitor_keeps_other_fields "unused" "2025-01-02" versioned_world
           versioned_document ["a"] 1 {["2025-01-01" := 1]}).
  - reflexivity.
  - reflexivity.
  - reflexivity.
  - reflexivity.
  - cbn. intros Hin. apply list_elem_of_singleton in Hin. discriminate.
Defined.

Lemma visits_count_distinct_sessions_witness :
  loads_as (fst (visits sample_calls fresh_world))
    (final_data sample_calls empty_data) ∧
  list_to_set (sessions (final_data sample_calls empty_data)) =@{gset string}
    list_to_set (sessions empty_data) ∪
    list_to_set (call_session <$> sample_calls) ∧
  total_count (final_data sample_calls empty_data) =
    total_count empty_data +
    Z.of_nat (size (list_to_set (call_session <$> sample_calls)
                      ∖ list_to_set (sessions empty_data) : gset string)).
Proof.
  apply (visits_count_distinct_sessions sample_calls fresh_world empty_data).
  reflexivity.
Defined.

Lemma visits_daily_histogram_witness :
  loads_as (fst (visits sample_calls (sample_world None)))
    (final_data sample_calls sample_data) ∧
  count_on (daily_counts (final_data sample_calls sample_data)) "2025-01-01" =
    count_on (daily_counts sample_data) "2025-01-01" +
    Z.of_nat (length (filter (λ c, call_today c = "2025-01-01")
                        (first_visits (sessions sample_data) sample_calls))).
Proof.
  apply (visits_daily_histogram sample_calls (sample_world None) sample_data
           "2025-01-01").
  reflexivity.
Defined.

Lemma visits_new_sessions_count_up_witness :
  snd (visits new_calls (sample_world None)) = inr [JInt 2; JInt 3].
Proof.
  apply (visits_new_sessions_count_up new_calls (sample_world None) sample_data).
  - reflexivity.
  - by_evaluation.
  - intros sid Hin.
    cbn in Hin. apply elem_of_cons in Hin as [->|Hin]; [by_evaluation|].
    apply list_elem_of_singleton in Hin as ->. by_evaluation.
Defined.

Lemma visit_again_after_others_witness :
  let c := {| call_slot := None; call_uuid := "b"; call_today := "2025-01-01" |} in
  let c' := {| call_slot := Some "b"; call_uuid := "z"; call_today := "2025-01-09" |} in
  let w1 := fst (visits (c :: new_calls) fresh_world) in
  file (fst (visit c' w1)) = file w1 ∧
  writes (fst (visit c' w1)) = writes w1 ∧
  snd (visit c' w1) =
    inr (JInt (total_count (final_data (c :: new_calls) empty_data))).
Proof.
  apply (visit_again_after_others
           {| call_slot := None; call_uuid := "b"; call_today := "2025-01-01" |}
           new_calls
           {| call_slot := Some "b"; call_uuid := "z"; call_today := "2025-01-09" |}
           fresh_world empty_data).
  - reflexivity.
  - reflexivity.
Defined.

Lemma get_prompt_identifies_style_witness :
  "Humanize" = "Humanize" ∧
  (get_prompt_for_transformation "Cubism" = fallback_prompt ↔
   "Cubism" ∉ known_styles).
Proof.
  destruct get_prompt_identifies_style as (Hinj & Hfallback).
  split.
  - apply (Hinj "Humanize" "Humanize").
    + by_evaluation.
    + by_evaluation.
    + reflexivity.
  - apply (Hfallback "Cubism").
Defined.

Lemma display_images_shows_each_url_witness :
  st_image (Url "https://img.example/1") "Ghibli Transformation 2 ✨"
  ∈ display_events sample_env "Ghibli" 0 0 sample_urls.
Proof.
  destruct (display_images_shows_each_url sample_env "Ghibli" sample_urls
              0%nat [] blank_page) as (_ & _ & _ & Himage).
  apply (Himage 1%nat "https://img.example/1"). reflexivity.
Defined.

Lemma package_fetch_raises_witness :
  package flaky_env sample_urls "Ghibli" blank_page =
    (rendered blank_page
       [requests_get_call "https://img.example/0";
        requests_get_call "https://img.example/1"],
     inl (Exception "Connection reset by peer")).
Proof.
  apply (package_fetch_raises flaky_env "Ghibli"
           ["https://img.example/0"]
           [ {| status_code := 200; content := "PNG https://img.example/0" |} ]
           "https://img.example/1" ["https://img.example/2"]
           (Exception "Connection reset by peer") blank_page).
  - repeat constructor.
  - reflexivity.
Defined.

Lemma main_page_fetch_raises_witness :
  snd (main_page flaky_env true "sk-ok" "Ghibli" 3 "1024x1024" (Some "bytes")
         blank_page) = inr tt ∧
  transformed_images
    (fst (main_page flaky_env true "sk-ok" "Ghibli" 3 "1024x1024" (Some "bytes")
            blank_page)) = Some sample_urls.
Proof.
  rewrite (main_page_fetch_raises flaky_env "sk-ok" "Ghibli" 3 "1024x1024" "bytes"
             {| url := "https://img.example/0" |}
             [ {| url := "https://img.example/1" |};
               {| url := "https://img.example/2" |} ]
             ["https://img.example/0"]
             [ {| status_code := 200; content := "PNG https://img.example/0" |} ]
             "https://img.example/1" ["https://img.example/2"]
             (Exception "Connection reset by peer") blank_page).
  - split; reflexivity.
  - discriminate.
  - reflexivity.
  - reflexivity.
  - repeat constructor.
  - reflexivity.
Defined.

Lemma main_page_offers_archive_witness :
  st_download_button "🔮 Download All Ghibli Transformations"
    [("ghibli_transform_1.png", "PNG https://img.example/0")]
    "aura_farm_ghibli_transformations.zip" "application/zip"
  ∈ log (fst (main_page sample_env true "sk-ok" "Ghibli" 2 "1024x1024"
                (Some "bytes") blank_page)).
Proof.
  rewrite (main_page_offers_archive sample_env "sk-ok" "Ghibli" 2 "1024x1024"
             "bytes"
             {| url := "https://img.example/0" |}
             [ {| url := "https://img.example/1" |} ]
             [ {| status_code := 200; content := "PNG https://img.example/0" |};
               {| status_code := 404; content := "" |} ] blank_page).
  - unfold shown_results. cbn [fst log]. rewrite !elem_of_app.
    do 5 right. left. apply list_elem_of_here.
  - discriminate.
  - reflexivity.
  - repeat constructor.
Defined.

Lemma main_page_no_results_witness :
  main_page sample_env true "bad" "Ghibli" 1 "1024x1024" (Some "bytes") blank_page =
    (rendered blank_page
       (opening_events "Ghibli" "bytes" ++
        [images_edit_call "bad" (request_for "bytes" "Ghibli" 1 "1024x1024");
         st_error "Error transforming image: Incorrect API key provided";
         st_status_update "✅ Ghibli transformation complete!" "complete"] ++
        gallery_events),
     inr tt) ∧
  main_page sample_env true "sk-ok" "Ghibli" 0 "1024x1024" (Some "bytes")
    blank_page =
    (rendered blank_page
       (opening_events "Ghibli" "bytes" ++
        [images_edit_call "sk-ok" (request_for "bytes" "Ghibli" 0 "1024x1024");
         st_status_update "✅ Ghibli transformation complete!" "complete"] ++
        gallery_events),
     inr tt).
Proof.
  split.
  - apply (proj1 (main_page_no_results sample_env "bad" "Ghibli" 1 "1024x1024"
                    "bytes" blank_page ltac:(discriminate))
             (Exception "Incorrect API key provided")).
    reflexivity.
  - apply (proj2 (main_page_no_results sample_env "sk-ok" "Ghibli" 0 "1024x1024"
                    "bytes" blank_page ltac:(discriminate))).
    reflexivity.
Defined.

Lemma package_entry_names_distinct_witness :
  ∃ zip_io,
    snd (package sample_env sample_urls "Ghibli" blank_page) = inr zip_io ∧
    NoDup (fst <$> zip_io).
Proof.
  apply (package_entry_names_distinct sample_env "Ghibli" sample_urls
           [ {| status_code := 200; content := "PNG https://img.example/0" |};
             {| status_code := 404; content := "" |};
             {| status_code := 200; content := "PNG https://img.example/2" |} ]
           blank_page).
  repeat constructor.
Defined.

Lemma package_entry_count_witness :
  ∃ zip_io,
    snd (package sample_env sample_urls "Ghibli" blank_page) = inr zip_io ∧
    length zip_io = 2%nat.
Proof.
  destruct (package_entry_count sample_env "Ghibli" sample_urls
              [ {| status_code := 200; content := "PNG https://img.example/0" |};
                {| status_code := 404; content := "" |};
                {| status_code := 200; content := "PNG https://img.example/2" |} ]
              blank_page) as (zip_io & Hzip & Hlen & _).
  - repeat constructor.
  - exists zip_io. split; [exact Hzip | exact Hlen].
Defined.

Lemma package_fetches_each_url_once_witness :
  ∃ evs,
    fst (package sample_env sample_urls "Ghibli" blank_page)
      = rendered blank_page evs ∧
    List.filter is_service_call evs = requests_get_call <$> sample_urls.
Proof.
  apply (package_fetches_each_url_once sample_env "Ghibli" sample_urls
           [ {| status_code := 200; content := "PNG https://img.example/0" |};
             {| status_code := 404; content := "" |};
             {| status_code := 200; content := "PNG https://img.example/2" |} ]
           blank_page).
  repeat constructor.
Defined.

Lemma main_tracker_failure_witness :
  main sample_env "b" "2025-01-01" sample_widgets
    (sample_app {| file := Some (inr (JList [])); writes := [];
                   session_id := None |}) =
    ({| visitor_store := {| file := Some (inr (JList [])); writes := [];
                            session_id := Some "b" |};
        sidebar := [];
        main_area := blank_page |},
     inl (TrackerError TypeError)).
Proof.
  apply (main_tracker_failure sample_env "b" "2025-01-01" sample_widgets
           (sample_app {| file := Some (inr (JList [])); writes := [];
                          session_id := None |}) TypeError).
  reflexivity.
Defined.

